(** * Marriage letter generator: the data model of [app/models.py]

    The module declares four string enumerations, four persistent
    SQLModel tables and seven non-persistent schemas.  Every class is a
    list of attribute declarations; an attribute is either a data field
    ([name: annotation = Field(...)]) or a [Relationship(...)].  The
    declarations are embedded as data, attribute by attribute and in the
    order of the source; what SQLModel and pydantic make of them when a
    class is called or validated (defaults, required fields, length
    limits, enum membership) is embedded as functions over them. *)

From Stdlib Require Import List Ascii String ZArith Bool Arith Lia.
Import ListNotations.
Open Scope string_scope.
Open Scope list_scope.

Set Implicit Arguments.

(** ** Enumerations *)

Inductive MaritalStatus := SINGLE | DIVORCED | WIDOWED.

Inductive EducationLevel :=
  PRIMARY | SECONDARY | DIPLOMA | BACHELOR | MASTER | DOCTORATE | PROFESSIONAL.

Inductive Religion := ISLAM | CHRISTIANITY | HINDUISM | BUDDHISM | JUDAISM | OTHER.

Inductive LetterType := N1 | N2 | N3 | N4 | N5.

Definition MaritalStatus_value (m : MaritalStatus) : string :=
  match m with
  | SINGLE => "single"
  | DIVORCED => "divorced"
  | WIDOWED => "widowed"
  end.

Definition EducationLevel_value (e : EducationLevel) : string :=
  match e with
  | PRIMARY => "primary"
  | SECONDARY => "secondary"
  | DIPLOMA => "diploma"
  | BACHELOR => "bachelor"
  | MASTER => "master"
  | DOCTORATE => "doctorate"
  | PROFESSIONAL => "professional"
  end.

Definition Religion_value (r : Religion) : string :=
  match r with
  | ISLAM => "islam"
  | CHRISTIANITY => "christianity"
  | HINDUISM => "hinduism"
  | BUDDHISM => "buddhism"
  | JUDAISM => "judaism"
  | OTHER => "other"
  end.

Definition LetterType_value (l : LetterType) : string :=
  match l with
  | N1 => "N1"
  | N2 => "N2"
  | N3 => "N3"
  | N4 => "N4"
  | N5 => "N5"
  end.

Definition MaritalStatus_members : list MaritalStatus := [SINGLE; DIVORCED; WIDOWED].
Definition EducationLevel_members : list EducationLevel :=
  [PRIMARY; SECONDARY; DIPLOMA; BACHELOR; MASTER; DOCTORATE; PROFESSIONAL].
Definition Religion_members : list Religion :=
  [ISLAM; CHRISTIANITY; HINDUISM; BUDDHISM; JUDAISM; OTHER].
Definition LetterType_members : list LetterType := [N1; N2; N3; N4; N5].

(** The enumeration classes, as annotations refer to them. *)
Inductive enum_class := MaritalStatusE | EducationLevelE | ReligionE | LetterTypeE.

(** The values of the members of a class, in declaration order. *)
Definition enum_values (e : enum_class) : list string :=
  match e with
  | MaritalStatusE => map MaritalStatus_value MaritalStatus_members
  | EducationLevelE => map EducationLevel_value EducationLevel_members
  | ReligionE => map Religion_value Religion_members
  | LetterTypeE => map LetterType_value LetterType_members
  end.

Definition enum_class_eqb (a b : enum_class) : bool :=
  match a, b with
  | MaritalStatusE, MaritalStatusE => true
  | EducationLevelE, EducationLevelE => true
  | ReligionE, ReligionE => true
  | LetterTypeE, LetterTypeE => true
  | _, _ => false
  end.

(** ** Annotations and values *)

(** The annotations that occur in the module.  [TModel c] is a field whose
    annotation is the schema class named [c]; [TDict] is [Dict[str, Any]]. *)
Inductive py_type :=
| TInt
| TStr
| TBool
| TDate
| TDatetime
| TDecimal
| TEnum (e : enum_class)
| TOptional (t : py_type)
| TList (t : py_type)
| TDict
| TModel (cls : string).

(** Python values.  A string is its sequence of characters; a date and a
    datetime are points on a time line; [VDecimal u s] is the decimal
    [u * 10^-s]; [VEnum e v] is the member of [e] whose value is [v]; a
    dict and a model instance are both a list of named values. *)
#[warnings="-register-all"]
Inductive value :=
| VNone
| VInt (z : Z)
| VStr (s : string)
| VBool (b : bool)
| VDate (d : Z)
| VDatetime (t : Z)
| VDecimal (unscaled : Z) (scale : nat)
| VEnum (e : enum_class) (v : string)
| VList (l : list value)
| VDict (kv : list (string * value)).

(** ** Attribute declarations *)

Inductive sa_type := JSON.

(** The keyword arguments given to [Field(...)]. *)
Inductive field_arg :=
| default (v : value)
| default_factory_utcnow
| primary_key
| max_length (n : nat)
| decimal_places (n : nat)
| foreign_key (target : string)
| unique
| sa_column (c : sa_type).

Record FieldInfo := Field {
  name : string;
  annotation : py_type;
  args : list field_arg
}.

(** How a relationship attribute is annotated: [List["C"]], [C] or
    [Optional[C]]. *)
Inductive rel_shape := RList | ROne | ROptional.

Record RelationshipInfo := Relationship {
  rel_name : string;
  rel_shape_of : rel_shape;
  rel_class : string;
  back_populates : string;
  foreign_keys : string
}.

Inductive class_attr :=
| Data (f : FieldInfo)
| Rel (r : RelationshipInfo).

Record Model := Class {
  cls_name : string;
  table : bool;
  tablename : option string;
  attrs : list class_attr
}.

(** ** The persistent models (stored in the database) *)

(** Base person model for husband, wife, and parents. *)
Definition Person : Model :=
  Class "Person" true (Some "persons")
  [ Data (Field "id" (TOptional TInt) [default VNone; primary_key]);
    Data (Field "full_name" TStr [max_length 255]);
    Data (Field "date_of_birth" TDate []);
    Data (Field "place_of_birth" TStr [max_length 255]);
    Data (Field "nationality" TStr [max_length 100]);
    Data (Field "religion" (TEnum ReligionE) []);
    Data (Field "occupation" TStr [max_length 255]);
    Data (Field "education_level" (TEnum EducationLevelE) []);
    Data (Field "institution_name" TStr [default (VStr ""); max_length 255]);
    Data (Field "graduation_year" (TOptional TInt) [default VNone]);
    Data (Field "monthly_income" (TOptional TDecimal) [default VNone; decimal_places 2]);
    Data (Field "address" TStr [max_length 500]);
    Data (Field "phone_number" TStr [max_length 20]);
    Data (Field "email" TStr [default (VStr ""); max_length 255]);
    Data (Field "height_cm" (TOptional TInt) [default VNone]);
    Data (Field "weight_kg" (TOptional TDecimal) [default VNone; decimal_places 1]);
    Data (Field "complexion" TStr [default (VStr ""); max_length 100]);
    Data (Field "physical_disabilities" TStr [default (VStr ""); max_length 500]);
    Data (Field "health_conditions" TStr [default (VStr ""); max_length 500]);
    Data (Field "hobbies" TStr [default (VStr ""); max_length 500]);
    Data (Field "additional_notes" TStr [default (VStr ""); max_length 1000]);
    Data (Field "created_at" TDatetime [default_factory_utcnow]);
    Rel (Relationship "as_husband_letters" RList "MarriageLetter"
           "husband" "[MarriageLetter.husband_id]");
    Rel (Relationship "as_wife_letters" RList "MarriageLetter"
           "wife" "[MarriageLetter.wife_id]");
    Rel (Relationship "as_husband_father_letters" RList "MarriageLetter"
           "husband_father" "[MarriageLetter.husband_father_id]");
    Rel (Relationship "as_husband_mother_letters" RList "MarriageLetter"
           "husband_mother" "[MarriageLetter.husband_mother_id]");
    Rel (Relationship "as_wife_father_letters" RList "MarriageLetter"
           "wife_father" "[MarriageLetter.wife_father_id]");
    Rel (Relationship "as_wife_mother_letters" RList "MarriageLetter"
           "wife_mother" "[MarriageLetter.wife_mother_id]") ].

(** Preferences for marriage partner. *)
Definition MarriagePreferences : Model :=
  Class "MarriagePreferences" true (Some "marriage_preferences")
  [ Data (Field "id" (TOptional TInt) [default VNone; primary_key]);
    Data (Field "preferred_age_min" (TOptional TInt) [default VNone]);
    Data (Field "preferred_age_max" (TOptional TInt) [default VNone]);
    Data (Field "preferred_education" (TOptional (TEnum EducationLevelE)) [default VNone]);
    Data (Field "preferred_occupation" TStr [default (VStr ""); max_length 255]);
    Data (Field "preferred_religion" (TOptional (TEnum ReligionE)) [default VNone]);
    Data (Field "preferred_nationality" TStr [default (VStr ""); max_length 100]);
    Data (Field "preferred_location" TStr [default (VStr ""); max_length 255]);
    Data (Field "preferred_income_min" (TOptional TDecimal) [default VNone; decimal_places 2]);
    Data (Field "preferred_height_min" (TOptional TInt) [default VNone]);
    Data (Field "preferred_height_max" (TOptional TInt) [default VNone]);
    Data (Field "marital_status_acceptable" (TList TStr) [default (VList []); sa_column JSON]);
    Data (Field "additional_requirements" TStr [default (VStr ""); max_length 1000]);
    Data (Field "created_at" TDatetime [default_factory_utcnow]);
    Rel (Relationship "husband_preferences" RList "MarriageLetter"
           "husband_preferences_obj" "[MarriageLetter.husband_preferences_id]");
    Rel (Relationship "wife_preferences" RList "MarriageLetter"
           "wife_preferences_obj" "[MarriageLetter.wife_preferences_id]") ].

(** Family background information. *)
Definition FamilyBackground : Model :=
  Class "FamilyBackground" true (Some "family_backgrounds")
  [ Data (Field "id" (TOptional TInt) [default VNone; primary_key]);
    Data (Field "family_origin" TStr [max_length 255]);
    Data (Field "ancestral_home" TStr [max_length 255]);
    Data (Field "family_traditions" TStr [default (VStr ""); max_length 1000]);
    Data (Field "social_status" TStr [default (VStr ""); max_length 255]);
    Data (Field "family_values" TStr [default (VStr ""); max_length 1000]);
    Data (Field "number_of_siblings" TInt [default (VInt 0)]);
    Data (Field "siblings_details" TStr [default (VStr ""); max_length 1000]);
    Data (Field "family_income_range" TStr [default (VStr ""); max_length 100]);
    Data (Field "property_details" TStr [default (VStr ""); max_length 500]);
    Data (Field "family_reputation" TStr [default (VStr ""); max_length 500]);
    Data (Field "created_at" TDatetime [default_factory_utcnow]);
    Rel (Relationship "husband_families" RList "MarriageLetter"
           "husband_family" "[MarriageLetter.husband_family_id]");
    Rel (Relationship "wife_families" RList "MarriageLetter"
           "wife_family" "[MarriageLetter.wife_family_id]") ].

(** Main marriage letter containing all biodata. *)
Definition MarriageLetter : Model :=
  Class "MarriageLetter" true (Some "marriage_letters")
  [ Data (Field "id" (TOptional TInt) [default VNone; primary_key]);
    Data (Field "letter_type" (TEnum LetterTypeE) []);
    Data (Field "reference_number" TStr [unique; max_length 50]);
    (* Husband information *)
    Data (Field "husband_id" TInt [foreign_key "persons.id"]);
    Data (Field "husband_father_id" (TOptional TInt) [default VNone; foreign_key "persons.id"]);
    Data (Field "husband_mother_id" (TOptional TInt) [default VNone; foreign_key "persons.id"]);
    Data (Field "husband_marital_status" (TEnum MaritalStatusE)
            [default (VEnum MaritalStatusE (MaritalStatus_value SINGLE))]);
    Data (Field "husband_family_id" (TOptional TInt)
            [default VNone; foreign_key "family_backgrounds.id"]);
    Data (Field "husband_preferences_id" (TOptional TInt)
            [default VNone; foreign_key "marriage_preferences.id"]);
    (* Wife information *)
    Data (Field "wife_id" TInt [foreign_key "persons.id"]);
    Data (Field "wife_father_id" (TOptional TInt) [default VNone; foreign_key "persons.id"]);
    Data (Field "wife_mother_id" (TOptional TInt) [default VNone; foreign_key "persons.id"]);
    Data (Field "wife_marital_status" (TEnum MaritalStatusE)
            [default (VEnum MaritalStatusE (MaritalStatus_value SINGLE))]);
    Data (Field "wife_family_id" (TOptional TInt)
            [default VNone; foreign_key "family_backgrounds.id"]);
    Data (Field "wife_preferences_id" (TOptional TInt)
            [default VNone; foreign_key "marriage_preferences.id"]);
    (* Letter metadata *)
    Data (Field "purpose" TStr [max_length 500]);
    Data (Field "special_requests" TStr [default (VStr ""); max_length 1000]);
    Data (Field "contact_person" TStr [max_length 255]);
    Data (Field "contact_phone" TStr [max_length 20]);
    Data (Field "contact_email" TStr [default (VStr ""); max_length 255]);
    (* Status and timestamps *)
    Data (Field "is_printed" TBool [default (VBool false)]);
    Data (Field "print_date" (TOptional TDatetime) [default VNone]);
    Data (Field "created_at" TDatetime [default_factory_utcnow]);
    Data (Field "updated_at" TDatetime [default_factory_utcnow]);
    (* Custom fields for specific letter types *)
    Data (Field "custom_fields" TDict [default (VDict []); sa_column JSON]);
    (* Relationships *)
    Rel (Relationship "husband" ROne "Person"
           "as_husband_letters" "[MarriageLetter.husband_id]");
    Rel (Relationship "wife" ROne "Person"
           "as_wife_letters" "[MarriageLetter.wife_id]");
    Rel (Relationship "husband_father" ROptional "Person"
           "as_husband_father_letters" "[MarriageLetter.husband_father_id]");
    Rel (Relationship "husband_mother" ROptional "Person"
           "as_husband_mother_letters" "[MarriageLetter.husband_mother_id]");
    Rel (Relationship "wife_father" ROptional "Person"
           "as_wife_father_letters" "[MarriageLetter.wife_father_id]");
    Rel (Relationship "wife_mother" ROptional "Person"
           "as_wife_mother_letters" "[MarriageLetter.wife_mother_id]");
    Rel (Relationship "husband_family" ROptional "FamilyBackground"
           "husband_families" "[MarriageLetter.husband_family_id]");
    Rel (Relationship "wife_family" ROptional "FamilyBackground"
           "wife_families" "[MarriageLetter.wife_family_id]");
    Rel (Relationship "husband_preferences_obj" ROptional "MarriagePreferences"
           "husband_preferences" "[MarriageLetter.husband_preferences_id]");
    Rel (Relationship "wife_preferences_obj" ROptional "MarriagePreferences"
           "wife_preferences" "[MarriageLetter.wife_preferences_id]") ].

(** ** The non-persistent schemas (validation, forms, API requests and
    responses) *)

(** Schema for creating a person. *)
Definition PersonCreate : Model :=
  Class "PersonCreate" false None
  [ Data (Field "full_name" TStr [max_length 255]);
    Data (Field "date_of_birth" TDate []);
    Data (Field "place_of_birth" TStr [max_length 255]);
    Data (Field "nationality" TStr [max_length 100]);
    Data (Field "religion" (TEnum ReligionE) []);
    Data (Field "occupation" TStr [max_length 255]);
    Data (Field "education_level" (TEnum EducationLevelE) []);
    Data (Field "institution_name" TStr [default (VStr ""); max_length 255]);
    Data (Field "graduation_year" (TOptional TInt) [default VNone]);
    Data (Field "monthly_income" (TOptional TDecimal) [default VNone; decimal_places 2]);
    Data (Field "address" TStr [max_length 500]);
    Data (Field "phone_number" TStr [max_length 20]);
    Data (Field "email" TStr [default (VStr ""); max_length 255]);
    Data (Field "height_cm" (TOptional TInt) [default VNone]);
    Data (Field "weight_kg" (TOptional TDecimal) [default VNone; decimal_places 1]);
    Data (Field "complexion" TStr [default (VStr ""); max_length 100]);
    Data (Field "physical_disabilities" TStr [default (VStr ""); max_length 500]);
    Data (Field "health_conditions" TStr [default (VStr ""); max_length 500]);
    Data (Field "hobbies" TStr [default (VStr ""); max_length 500]);
    Data (Field "additional_notes" TStr [default (VStr ""); max_length 1000]) ].

(** Schema for creating marriage preferences. *)
Definition MarriagePreferencesCreate : Model :=
  Class "MarriagePreferencesCreate" false None
  [ Data (Field "preferred_age_min" (TOptional TInt) [default VNone]);
    Data (Field "preferred_age_max" (TOptional TInt) [default VNone]);
    Data (Field "preferred_education" (TOptional (TEnum EducationLevelE)) [default VNone]);
    Data (Field "preferred_occupation" TStr [default (VStr ""); max_length 255]);
    Data (Field "preferred_religion" (TOptional (TEnum ReligionE)) [default VNone]);
    Data (Field "preferred_nationality" TStr [default (VStr ""); max_length 100]);
    Data (Field "preferred_location" TStr [default (VStr ""); max_length 255]);
    Data (Field "preferred_income_min" (TOptional TDecimal) [default VNone; decimal_places 2]);
    Data (Field "preferred_height_min" (TOptional TInt) [default VNone]);
    Data (Field "preferred_height_max" (TOptional TInt) [default VNone]);
    Data (Field "marital_status_acceptable" (TList TStr) [default (VList [])]);
    Data (Field "additional_requirements" TStr [default (VStr ""); max_length 1000]) ].

(** Schema for creating family background. *)
Definition FamilyBackgroundCreate : Model :=
  Class "FamilyBackgroundCreate" false None
  [ Data (Field "family_origin" TStr [max_length 255]);
    Data (Field "ancestral_home" TStr [max_length 255]);
    Data (Field "family_traditions" TStr [default (VStr ""); max_length 1000]);
    Data (Field "social_status" TStr [default (VStr ""); max_length 255]);
    Data (Field "family_values" TStr [default (VStr ""); max_length 1000]);
    Data (Field "number_of_siblings" TInt [default (VInt 0)]);
    Data (Field "siblings_details" TStr [default (VStr ""); max_length 1000]);
    Data (Field "family_income_range" TStr [default (VStr ""); max_length 100]);
    Data (Field "property_details" TStr [default (VStr ""); max_length 500]);
    Data (Field "family_reputation" TStr [default (VStr ""); max_length 500]) ].

(** Schema for creating a marriage letter. *)
Definition MarriageLetterCreate : Model :=
  Class "MarriageLetterCreate" false None
  [ Data (Field "letter_type" (TEnum LetterTypeE) []);
    (* Husband information *)
    Data (Field "husband_data" (TModel "PersonCreate") []);
    Data (Field "husband_father_data" (TOptional (TModel "PersonCreate")) [default VNone]);
    Data (Field "husband_mother_data" (TOptional (TModel "PersonCreate")) [default VNone]);
    Data (Field "husband_marital_status" (TEnum MaritalStatusE)
            [default (VEnum MaritalStatusE (MaritalStatus_value SINGLE))]);
    Data (Field "husband_family_data" (TOptional (TModel "FamilyBackgroundCreate"))
            [default VNone]);
    Data (Field "husband_preferences_data" (TOptional (TModel "MarriagePreferencesCreate"))
            [default VNone]);
    (* Wife information *)
    Data (Field "wife_data" (TModel "PersonCreate") []);
    Data (Field "wife_father_data" (TOptional (TModel "PersonCreate")) [default VNone]);
    Data (Field "wife_mother_data" (TOptional (TModel "PersonCreate")) [default VNone]);
    Data (Field "wife_marital_status" (TEnum MaritalStatusE)
            [default (VEnum MaritalStatusE (MaritalStatus_value SINGLE))]);
    Data (Field "wife_family_data" (TOptional (TModel "FamilyBackgroundCreate"))
            [default VNone]);
    Data (Field "wife_preferences_data" (TOptional (TModel "MarriagePreferencesCreate"))
            [default VNone]);
    (* Letter metadata *)
    Data (Field "purpose" TStr [max_length 500]);
    Data (Field "special_requests" TStr [default (VStr ""); max_length 1000]);
    Data (Field "contact_person" TStr [max_length 255]);
    Data (Field "contact_phone" TStr [max_length 20]);
    Data (Field "contact_email" TStr [default (VStr ""); max_length 255]);
    (* Custom fields for specific letter types *)
    Data (Field "custom_fields" TDict [default (VDict [])]) ].

(** Schema for marriage letter response. *)
Definition MarriageLetterResponse : Model :=
  Class "MarriageLetterResponse" false None
  [ Data (Field "id" TInt []);
    Data (Field "letter_type" (TEnum LetterTypeE) []);
    Data (Field "reference_number" TStr []);
    Data (Field "purpose" TStr []);
    Data (Field "contact_person" TStr []);
    Data (Field "contact_phone" TStr []);
    Data (Field "contact_email" TStr []);
    Data (Field "is_printed" TBool []);
    Data (Field "print_date" (TOptional TDatetime) []);
    Data (Field "created_at" TDatetime []);
    Data (Field "updated_at" TDatetime []);
    (* Include basic person information *)
    Data (Field "husband_name" TStr []);
    Data (Field "wife_name" TStr []) ].

(** Schema for printing a letter. *)
Definition LetterPrintRequest : Model :=
  Class "LetterPrintRequest" false None
  [ Data (Field "letter_id" TInt []);
    Data (Field "print_format" TStr [default (VStr "pdf"); max_length 10]);
    Data (Field "include_photos" TBool [default (VBool false)]);
    Data (Field "letterhead" TStr [default (VStr ""); max_length 255]);
    Data (Field "additional_notes" TStr [default (VStr ""); max_length 500]) ].

(** Summary schema for letter listing. *)
Definition LetterSummary : Model :=
  Class "LetterSummary" false None
  [ Data (Field "id" TInt []);
    Data (Field "letter_type" (TEnum LetterTypeE) []);
    Data (Field "reference_number" TStr []);
    Data (Field "husband_name" TStr []);
    Data (Field "wife_name" TStr []);
    Data (Field "created_at" TDatetime []);
    Data (Field "is_printed" TBool []) ].

(** Every class of the module, in the order of the source. *)
Definition module_classes : list Model :=
  [ Person; MarriagePreferences; FamilyBackground; MarriageLetter;
    PersonCreate; MarriagePreferencesCreate; FamilyBackgroundCreate;
    MarriageLetterCreate; MarriageLetterResponse; LetterPrintRequest;
    LetterSummary ].

(** ** What a declaration says *)

Definition data_fields (l : list class_attr) : list FieldInfo :=
  flat_map (fun a => match a with Data f => [f] | Rel _ => [] end) l.

Definition relationship_attrs (l : list class_attr) : list RelationshipInfo :=
  flat_map (fun a => match a with Data _ => [] | Rel r => [r] end) l.

Definition model_fields (m : Model) : list FieldInfo := data_fields (attrs m).

Definition model_relationships (m : Model) : list RelationshipInfo :=
  relationship_attrs (attrs m).

Definition field_names (m : Model) : list string := map name (model_fields m).

(** What a field falls back on when the caller gives no value. *)
Inductive default_spec :=
| DefaultValue (v : value)
| DefaultFactoryUtcnow.

Fixpoint field_default (a : list field_arg) : option default_spec :=
  match a with
  | [] => None
  | default v :: _ => Some (DefaultValue v)
  | default_factory_utcnow :: _ => Some DefaultFactoryUtcnow
  | _ :: r => field_default r
  end.

Fixpoint field_max_length (a : list field_arg) : option nat :=
  match a with
  | [] => None
  | max_length n :: _ => Some n
  | _ :: r => field_max_length r
  end.

Fixpoint field_decimal_places (a : list field_arg) : option nat :=
  match a with
  | [] => None
  | decimal_places n :: _ => Some n
  | _ :: r => field_decimal_places r
  end.

Fixpoint field_foreign_key (a : list field_arg) : option string :=
  match a with
  | [] => None
  | foreign_key t :: _ => Some t
  | _ :: r => field_foreign_key r
  end.

Definition is_primary_key (x : field_arg) : bool :=
  match x with primary_key => true | _ => false end.

Definition is_unique (x : field_arg) : bool :=
  match x with unique => true | _ => false end.

Definition is_max_length (x : field_arg) : bool :=
  match x with max_length _ => true | _ => false end.

Definition field_primary_key (a : list field_arg) : bool := existsb is_primary_key a.

Definition field_unique (a : list field_arg) : bool := existsb is_unique a.

(** A field with no default must be given by the caller. *)
Definition is_required (f : FieldInfo) : bool :=
  match field_default (args f) with None => true | Some _ => false end.

Definition is_optional_type (t : py_type) : bool :=
  match t with TOptional _ => true | _ => false end.

Definition find_class (c : string) (l : list Model) : option Model :=
  find (fun m => String.eqb (cls_name m) c) l.

Definition find_field (k : string) (m : Model) : option FieldInfo :=
  find (fun f => String.eqb (name f) k) (model_fields m).

(** ** Foreign keys *)

(** A foreign key target is written ["table.column"]; the table part is
    what comes before the dot. *)
Fixpoint before_dot (s : string) : string :=
  match s with
  | EmptyString => EmptyString
  | String c r => if Ascii.eqb c "."%char then EmptyString else String c (before_dot r)
  end.

Definition references_table (t : string) (f : FieldInfo) : bool :=
  match field_foreign_key (args f) with
  | Some target => String.eqb (before_dot target) t
  | None => false
  end.

(** The fields of [m] that are foreign keys into table [t]. *)
Definition foreign_keys_to (t : string) (m : Model) : list string :=
  map name (filter (references_table t) (model_fields m)).

Definition table_models (l : list Model) : list Model := filter table l.

Definition has_tablename (t : string) (m : Model) : bool :=
  match tablename m with Some n => String.eqb n t | None => false end.

(** The foreign-key graph over the tables: an edge from [a] to [b] when a
    field of [a] is a foreign key into the table of [b]. *)
Definition fk_edge (a b : Model) : bool :=
  match tablename b with
  | Some t => existsb (references_table t) (model_fields a)
  | None => false
  end.

Definition fk_participant (l : list Model) (m : Model) : bool :=
  existsb (fun o => fk_edge m o || fk_edge o m) l.

Definition fk_graph_entities (l : list Model) : list Model :=
  filter (fk_participant (table_models l)) (table_models l).

(** ** Construction and validation

    A non-table class validates the keyword arguments it is constructed
    from, field by field in declaration order, and raises one error that
    lists every failure; a table class assigns them unchecked.  Both fill
    the fields the caller left out from the declared defaults.  Values are
    taken in the representation of the field's own annotation; a member of
    an enumeration may also be given by its string value.  The other
    conversions that pydantic makes between representations (a numeric
    string for an [int], an enumeration member for a [str], and the like)
    are outside this model, which refuses such a value: a refusal by the
    model is a refusal by pydantic only for a value that no conversion
    accepts.  The properties below are stated accordingly, of such values
    where they speak of refusal and of the values that validation returns
    where they speak of instances. *)

Definition kwargs := list (string * value).

Fixpoint lookup (k : string) (d : kwargs) : option value :=
  match d with
  | [] => None
  | (k', v) :: r => if String.eqb k k' then Some v else lookup k r
  end.

Inductive error_type :=
| missing
| int_type
| string_type
| string_too_long (limit : nat)
| bool_type
| date_type
| datetime_type
| decimal_type
| decimal_max_places (limit : nat)
| enum (e : enum_class)
| list_type
| too_long (limit : nat)
| dict_type
| model_type.

Inductive loc_item := Key (k : string) | Index (i : nat).

Record error := ErrorDetails { loc : list loc_item; err_type : error_type }.

(** Either the validated value, or a non-empty list of errors. *)
Inductive result (A : Type) :=
| Ok (a : A)
| Err (e : error) (more : list error).

Arguments Ok {A} a.
Arguments Err {A} e more.

Definition is_ok {A} (r : result A) : bool :=
  match r with Ok _ => true | Err _ _ => false end.

Definition fail {A} (t : error_type) : result A := Err (ErrorDetails [] t) [].

Definition at_loc (i : loc_item) (e : error) : error :=
  ErrorDetails (i :: loc e) (err_type e).

Definition errors_of {A} (r : result A) : list error :=
  match r with Ok _ => [] | Err e more => e :: more end.

(** The number of digits after the decimal point of [u * 10^-s] once
    trailing zeros are dropped. *)
Fixpoint decimal_places_of (u : Z) (s : nat) : nat :=
  match s with
  | O => O
  | S s' => if (u mod 10 =? 0)%Z then decimal_places_of (u / 10) s' else s
  end.

Definition within (n : nat) (limit : option nat) : bool :=
  match limit with Some m => Nat.leb n m | None => true end.

Definition limit_of (l : option nat) : nat :=
  match l with Some m => m | None => O end.

Section Validate.

(** The validators of the schema classes that annotations name. *)
Variable sub : string -> kwargs -> result value.

(** Validate the items of a list from index [i] on. *)
Fixpoint validate_items (f : value -> result value) (l : list value) (i : nat)
  : list value * list error :=
  match l with
  | [] => ([], [])
  | x :: r =>
      let (vs, es) := validate_items f r (S i) in
      match f x with
      | Ok v => (v :: vs, es)
      | Err e more => (vs, map (at_loc (Index i)) (e :: more) ++ es)
      end
  end.

(** Validate [v] against annotation [t] under the length limit [ml] and
    the decimal-places limit [dp] of the field.  The limits bind the
    value under [Optional]; a length limit on a list bounds the number
    of items. *)
Fixpoint validate_value (t : py_type) (ml dp : option nat) (v : value)
  : result value :=
  match t with
  | TInt => match v with VInt _ => Ok v | _ => fail int_type end
  | TStr =>
      match v with
      | VStr s =>
          if within (String.length s) ml then Ok v
          else fail (string_too_long (limit_of ml))
      | _ => fail string_type
      end
  | TBool => match v with VBool _ => Ok v | _ => fail bool_type end
  | TDate => match v with VDate _ => Ok v | _ => fail date_type end
  | TDatetime => match v with VDatetime _ => Ok v | _ => fail datetime_type end
  | TDecimal =>
      match v with
      | VDecimal u s =>
          if within (decimal_places_of u s) dp then Ok v
          else fail (decimal_max_places (limit_of dp))
      | _ => fail decimal_type
      end
  | TEnum e =>
      match v with
      | VEnum e' s =>
          if enum_class_eqb e e' && existsb (String.eqb s) (enum_values e)
          then Ok v else fail (enum e)
      | VStr s =>
          if existsb (String.eqb s) (enum_values e)
          then Ok (VEnum e s) else fail (enum e)
      | _ => fail (enum e)
      end
  | TOptional t' =>
      match v with
      | VNone => Ok VNone
      | _ => validate_value t' ml dp v
      end
  | TList t' =>
      match v with
      | VList l =>
          if within (List.length l) ml then
            match validate_items (validate_value t' None None) l 0 with
            | (vs, []) => Ok (VList vs)
            | (_, e :: more) => Err e more
            end
          else fail (too_long (limit_of ml))
      | _ => fail list_type
      end
  | TDict => match v with VDict _ => Ok v | _ => fail dict_type end
  | TModel c =>
      match v with
      | VDict kv => sub c kv
      | _ => fail model_type
      end
  end.

(** The clock: [utcnow k] is what the [k]-th call of [datetime.utcnow]
    returns. *)
Variable utcnow : nat -> Z.

Definition eval_default (d : default_spec) (calls : nat) : value * nat :=
  match d with
  | DefaultValue v => (v, calls)
  | DefaultFactoryUtcnow => (VDatetime (utcnow calls), S calls)
  end.

Definition check_field (f : FieldInfo) (v : value) : result value :=
  match validate_value (annotation f) (field_max_length (args f))
          (field_decimal_places (args f)) v with
  | Ok v' => Ok v'
  | Err e more =>
      Err (at_loc (Key (name f)) e) (map (at_loc (Key (name f))) more)
  end.

(** The outcome of every field, in declaration order; [calls] counts the
    clock readings made so far.  A default is not validated. *)
Fixpoint validate_fields (fs : list FieldInfo) (kw : kwargs) (calls : nat)
  : list (string * result value) :=
  match fs with
  | [] => []
  | f :: rest =>
      match lookup (name f) kw with
      | Some v => (name f, check_field f v) :: validate_fields rest kw calls
      | None =>
          match field_default (args f) with
          | Some d =>
              let (v, calls') := eval_default d calls in
              (name f, Ok v) :: validate_fields rest kw calls'
          | None =>
              (name f, Err (ErrorDetails [Key (name f)] missing) [])
                :: validate_fields rest kw calls
          end
      end
  end.

Definition collected_errors (out : list (string * result value)) : list error :=
  flat_map (fun o => errors_of (snd o)) out.

Definition collected_values (out : list (string * result value)) : kwargs :=
  flat_map (fun o => match snd o with Ok v => [(fst o, v)] | Err _ _ => [] end) out.

(** [Class.model_validate(kw)], and calling a non-table class on the
    keyword arguments [kw]. *)
Definition model_validate (m : Model) (kw : kwargs) (calls : nat) : result kwargs :=
  let out := validate_fields (model_fields m) kw calls in
  match collected_errors out with
  | [] => Ok (collected_values out)
  | e :: more => Err e more
  end.

(** Calling a table class on [kw]: the values are assigned as given,
    the defaults filled in, and a required field left out stays unset. *)
Fixpoint table_construct (fs : list FieldInfo) (kw : kwargs) (calls : nat) : kwargs :=
  match fs with
  | [] => []
  | f :: rest =>
      match lookup (name f) kw with
      | Some v => (name f, v) :: table_construct rest kw calls
      | None =>
          match field_default (args f) with
          | Some d =>
              let (v, calls') := eval_default d calls in
              (name f, v) :: table_construct rest kw calls'
          | None => table_construct rest kw calls
          end
      end
  end.

Definition init (m : Model) (kw : kwargs) (calls : nat) : result kwargs :=
  if table m then Ok (table_construct (model_fields m) kw calls)
  else model_validate m kw calls.

End Validate.

(** The class an annotation names, if any. *)
Fixpoint named_class (t : py_type) : option string :=
  match t with
  | TModel c => Some c
  | TOptional t' => named_class t'
  | TList t' => named_class t'
  | _ => None
  end.

Definition referenced_classes (m : Model) : list string :=
  flat_map (fun f => match named_class (annotation f) with Some c => [c] | None => [] end)
    (model_fields m).

(** Whether constructing [m] may read the clock. *)
Definition reads_clock (m : Model) : bool :=
  existsb (fun f => match field_default (args f) with
                    | Some DefaultFactoryUtcnow => true
                    | _ => false
                    end)
    (model_fields m).

(** A class named by an annotation is validated on its own; the classes so
    named ([PersonCreate], [FamilyBackgroundCreate],
    [MarriagePreferencesCreate]) name no class in turn and declare no
    default factory, so one level of nesting and no clock is all that
    validating a nested value needs. *)
Definition no_nested (c : string) (kv : kwargs) : result value := fail model_type.

Definition as_value (r : result kwargs) : result value :=
  match r with Ok inst => Ok (VDict inst) | Err e more => Err e more end.

Definition validate_nested (c : string) (kv : kwargs) : result value :=
  match find_class c module_classes with
  | Some m => as_value (model_validate no_nested (fun _ => 0%Z) m kv 0)
  | None => fail model_type
  end.

Definition validate (utcnow : nat -> Z) (m : Model) (kw : kwargs) (calls : nat)
  : result kwargs :=
  model_validate validate_nested utcnow m kw calls.

Definition construct (utcnow : nat -> Z) (m : Model) (kw : kwargs) (calls : nat)
  : result kwargs :=
  init validate_nested utcnow m kw calls.

(** ** Reading the schema *)

(** The fields of [m] that are foreign keys into the table of [target]. *)
Definition references_to (target m : Model) : list string :=
  match tablename target with
  | Some t => foreign_keys_to t m
  | None => []
  end.

(** The foreign keys of [m], whatever table they point into. *)
Definition all_foreign_keys (m : Model) : list string :=
  map name
    (filter (fun f => match field_foreign_key (args f) with Some _ => true | None => false end)
       (model_fields m)).

(** The references an instance holds through the keys [ks]: those set to
    an integer rather than to [None] or left unset. *)
Definition held_references (ks : list string) (inst : kwargs) : list string :=
  filter (fun k => match lookup k inst with Some (VInt _) => true | _ => false end) ks.

(** A letter in which every reference is set. *)
Definition full_letter : kwargs :=
  [ ("letter_type", VStr "N1"); ("reference_number", VStr "ML-0001");
    ("husband_id", VInt 1); ("husband_father_id", VInt 2); ("husband_mother_id", VInt 3);
    ("husband_family_id", VInt 1); ("husband_preferences_id", VInt 1);
    ("wife_id", VInt 4); ("wife_father_id", VInt 5); ("wife_mother_id", VInt 6);
    ("wife_family_id", VInt 2); ("wife_preferences_id", VInt 2);
    ("purpose", VStr "introduction"); ("contact_person", VStr "registrar");
    ("contact_phone", VStr "555-0100") ].

(** The constraints among the arguments of [Field]: everything but the
    default and the column type. *)
Definition is_constraint (x : field_arg) : bool :=
  match x with
  | primary_key | max_length _ | decimal_places _ | foreign_key _ | unique => true
  | default _ | default_factory_utcnow | sa_column _ => false
  end.

(** A field whose only declared constraint, if any, is a maximum length. *)
Definition length_constraint_only (f : FieldInfo) : bool :=
  forallb (fun x => negb (is_constraint x) || is_max_length x) (args f).

Definition is_some {A} (o : option A) : bool :=
  match o with Some _ => true | None => false end.

Definition is_str (t : py_type) : bool :=
  match t with TStr => true | _ => false end.

Definition is_optional_decimal (t : py_type) : bool :=
  match t with TOptional TDecimal => true | _ => false end.

Definition mem (k : string) (l : list string) : bool := existsb (String.eqb k) l.

(** What the persistent models declare beyond presence and length. *)
Definition declared_constraints (m : Model) (f : FieldInfo) : Prop :=
  is_some (field_max_length (args f)) = is_str (annotation f) /\
  field_primary_key (args f) = String.eqb (name f) "id" /\
  field_unique (args f)
    = String.eqb (cls_name m) "MarriageLetter" && String.eqb (name f) "reference_number" /\
  is_some (field_foreign_key (args f))
    = String.eqb (cls_name m) "MarriageLetter" && mem (name f) (all_foreign_keys MarriageLetter) /\
  is_some (field_decimal_places (args f)) = is_optional_decimal (annotation f) /\
  length_constraint_only f
    = negb (field_primary_key (args f) || field_unique (args f)
            || is_some (field_foreign_key (args f))
            || is_some (field_decimal_places (args f))).

(** What a Create schema has to share with the model it mirrors. *)
Definition mirror_view (f : FieldInfo)
  : string * py_type * option default_spec * option nat :=
  (name f, annotation f, field_default (args f), field_max_length (args f)).

(** The data fields of a persistent model that the caller supplies. *)
Definition own_data_fields (m : Model) : list FieldInfo :=
  filter (fun f => negb (String.eqb (name f) "id" || String.eqb (name f) "created_at"))
    (model_fields m).

Definition mirrors (c m : Model) : Prop :=
  map mirror_view (model_fields c) = map mirror_view (own_data_fields m) /\
  model_relationships c = [].


(** ** Validation seen field by field *)

Section FieldWise.

Variable sub : string -> kwargs -> result value.

(** Whether the field [f] is satisfied by the keyword arguments [kw]. *)
Definition field_passes (f : FieldInfo) (kw : kwargs) : bool :=
  match lookup (name f) kw with
  | Some v => is_ok (check_field sub f v)
  | None => is_some (field_default (args f))
  end.

(** Whether the value [v] is accepted for the field named [k], and
    whether the arguments [kw] satisfy the fields not named [k]. *)
Definition value_accepted (m : Model) (k : string) (v : value) : bool :=
  forallb (fun f => negb (String.eqb (name f) k) || is_ok (check_field sub f v))
    (model_fields m).

Definition others_pass (m : Model) (k : string) (kw : kwargs) : bool :=
  forallb (fun f => String.eqb (name f) k || field_passes f kw) (model_fields m).

End FieldWise.

(** ** The length limits on their own *)

(** The part of [validate_value] that is the length limit. *)
Fixpoint length_within (t : py_type) (ml : option nat) (v : value) : bool :=
  match t with
  | TStr => match v with VStr s => within (String.length s) ml | _ => true end
  | TOptional t' => match v with VNone => true | _ => length_within t' ml v end
  | TList _ => match v with VList l => within (List.length l) ml | _ => true end
  | _ => true
  end.

Definition field_length_ok (f : FieldInfo) (kw : kwargs) : bool :=
  match lookup (name f) kw with
  | Some v => length_within (annotation f) (field_max_length (args f)) v
  | None => true
  end.

Definition lengths_within (m : Model) (kw : kwargs) : bool :=
  forallb (fun f => field_length_ok f kw) (model_fields m).

(** Every string given for a field with a length limit is within it. *)
Definition strings_within_limits (m : Model) (kw : kwargs) : Prop :=
  forall f n s,
    In f (model_fields m) ->
    field_max_length (args f) = Some n ->
    lookup (name f) kw = Some (VStr s) ->
    String.length s <= n.

(** The class [m] with the length limits taken out of its declarations. *)
Definition drop_max_length (f : FieldInfo) : FieldInfo :=
  Field (name f) (annotation f) (filter (fun x => negb (is_max_length x)) (args f)).

Definition without_max_length (m : Model) : Model :=
  Class (cls_name m) (table m) (tablename m)
    (map (fun a => match a with Data f => Data (drop_max_length f) | Rel r => Rel r end)
       (attrs m)).

(** Whether the length limits of [m] are all declared on string fields. *)
Definition limits_on_strings (m : Model) : bool :=
  forallb (fun f => is_str (annotation f) || negb (is_some (field_max_length (args f))))
    (model_fields m).

Definition create_schemas : list Model :=
  [PersonCreate; MarriagePreferencesCreate; FamilyBackgroundCreate; MarriageLetterCreate].

(** ** Sample inputs *)

(** The required fields of a person, but for [full_name] and [religion]. *)
Definition person_rest : kwargs :=
  [ ("date_of_birth", VDate 727000); ("place_of_birth", VStr "Lahore");
    ("nationality", VStr "Pakistani"); ("occupation", VStr "Engineer");
    ("education_level", VStr "bachelor"); ("address", VStr "12 Mall Road");
    ("phone_number", VStr "555-0101") ].

Definition person_input (full_name religion : string) : kwargs :=
  ("full_name", VStr full_name) :: ("religion", VStr religion) :: person_rest.

(** The required fields of a letter request, but for [letter_type]. *)
Definition letter_rest : kwargs :=
  [ ("husband_data", VDict (person_input "Amir Khan" "islam"));
    ("wife_data", VDict (person_input "Sara Malik" "islam"));
    ("purpose", VStr "introduction"); ("contact_person", VStr "registrar");
    ("contact_phone", VStr "555-0100") ].

(** A letter given by its required fields alone. *)
Definition required_letter (lt : LetterType) (ref : string) (h w : Z)
           (purpose person phone : string) : kwargs :=
  [ ("letter_type", VEnum LetterTypeE (LetterType_value lt));
    ("reference_number", VStr ref);
    ("husband_id", VInt h); ("wife_id", VInt w);
    ("purpose", VStr purpose); ("contact_person", VStr person);
    ("contact_phone", VStr phone) ].


(** What a letter has in the fields it falls back on. *)
Definition has_letter_defaults (inst : kwargs) : Prop :=
  lookup "is_printed" inst = Some (VBool false) /\
  lookup "print_date" inst = Some VNone /\
  lookup "husband_marital_status" inst
    = Some (VEnum MaritalStatusE (MaritalStatus_value SINGLE)) /\
  lookup "wife_marital_status" inst
    = Some (VEnum MaritalStatusE (MaritalStatus_value SINGLE)) /\
  lookup "custom_fields" inst = Some (VDict []).

(** A response, as the API would send it. *)
Definition sample_response : kwargs :=
  [ ("id", VInt 7); ("letter_type", VEnum LetterTypeE (LetterType_value N2));
    ("reference_number", VStr "ML-0007"); ("purpose", VStr "introduction");
    ("contact_person", VStr "registrar"); ("contact_phone", VStr "555-0100");
    ("contact_email", VStr ""); ("is_printed", VBool true);
    ("print_date", VDatetime 1700000300); ("created_at", VDatetime 1700000000);
    ("updated_at", VDatetime 1700000300);
    ("husband_name", VStr "Amir Khan"); ("wife_name", VStr "Sara Malik") ].

(** ** Looking an enumeration member up by its value *)

(** Calling an enumeration class on a value: the first member with that
    value, if there is one. *)
Definition enum_of_value {A} (value : A -> string) (members : list A) (s : string)
  : option A :=
  find (fun m => String.eqb (value m) s) members.

Definition MaritalStatus_of_value : string -> option MaritalStatus :=
  enum_of_value MaritalStatus_value MaritalStatus_members.

Definition EducationLevel_of_value : string -> option EducationLevel :=
  enum_of_value EducationLevel_value EducationLevel_members.

Definition Religion_of_value : string -> option Religion :=
  enum_of_value Religion_value Religion_members.

Definition LetterType_of_value : string -> option LetterType :=
  enum_of_value LetterType_value LetterType_members.

(** ** Relationships *)

(** What follows the first dot of a string. *)
Fixpoint after_dot (s : string) : string :=
  match s with
  | EmptyString => EmptyString
  | String c r => if Ascii.eqb c "."%char then r else after_dot r
  end.

(** [s] without its closing bracket. *)
Fixpoint unbracket_tail (s : string) : option string :=
  match s with
  | EmptyString => None
  | String c EmptyString => if Ascii.eqb c "]"%char then Some EmptyString else None
  | String c r => option_map (String c) (unbracket_tail r)
  end.

(** The [foreign_keys] of a relationship is written ["[Class.field]"];
    this reads the class and the field. *)
Definition parse_foreign_keys (s : string) : option (string * string) :=
  match s with
  | String c r =>
      if Ascii.eqb c "["%char then
        option_map (fun q => (before_dot q, after_dot q)) (unbracket_tail r)
      else None
  | EmptyString => None
  end.

Definition find_relationship (k : string) (m : Model) : option RelationshipInfo :=
  find (fun r => String.eqb (rel_name r) k) (model_relationships m).

Definition is_collection (s : rel_shape) : bool :=
  match s with RList => true | _ => false end.

(** The relationship [r] of class [m] is matched on the other side: the
    class it names has a relationship called [back_populates r] that names
    [m] and [r] back, goes by the same foreign key, and is the collection
    side when [r] is the scalar side, and conversely. *)
Definition paired (m : Model) (r : RelationshipInfo) : Prop :=
  exists n r',
    find_class (rel_class r) module_classes = Some n /\
    table n = true /\
    find_relationship (back_populates r) n = Some r' /\
    rel_class r' = cls_name m /\
    back_populates r' = rel_name r /\
    foreign_keys r' = foreign_keys r /\
    is_collection (rel_shape_of r') = negb (is_collection (rel_shape_of r)).

(** The foreign key field of [MarriageLetter] that a relationship goes by. *)
Definition relationship_key (r : RelationshipInfo) : option string :=
  match parse_foreign_keys (foreign_keys r) with
  | Some (c, k) => if String.eqb c "MarriageLetter" then Some k else None
  | None => None
  end.

(** The relationship [r] of [MarriageLetter] goes by a foreign key of the
    letter into the table of the class [r] names, and is optional exactly
    when that key is. *)
Definition keyed (r : RelationshipInfo) : Prop :=
  exists k f n t,
    relationship_key r = Some k /\
    find_field k MarriageLetter = Some f /\
    find_class (rel_class r) module_classes = Some n /\
    tablename n = Some t /\
    references_table t f = true /\
    is_optional_type (annotation f)
    = match rel_shape_of r with ROptional => true | _ => false end /\
    is_required f = match rel_shape_of r with ROne => true | _ => false end.

(** The annotation under [Optional]. *)
Definition base_type (t : py_type) : py_type :=
  match t with TOptional t' => t' | _ => t end.

(** The foreign key of the field [f] names a table of the module and the
    primary key of that table, whose type it shares. *)
Definition resolves (f : FieldInfo) : Prop :=
  match field_foreign_key (args f) with
  | None => True
  | Some target =>
      exists n pk,
        find (has_tablename (before_dot target)) (table_models module_classes) = Some n /\
        find_field (after_dot target) n = Some pk /\
        field_primary_key (args pk) = true /\
        base_type (annotation pk) = base_type (annotation f)
  end.

Definition primary_keys (m : Model) : list string :=
  map name (filter (fun f => field_primary_key (args f)) (model_fields m)).

(** The names of all the attributes of a class, fields and relationships. *)
Definition attr_names (m : Model) : list string :=
  map (fun a => match a with Data f => name f | Rel r => rel_name r end) (attrs m).

Definition tablenames (l : list Model) : list string :=
  flat_map (fun m => match tablename m with Some t => [t] | None => [] end) l.

(** ** Validating what validation returned *)

Fixpoint distinct (l : list string) : bool :=
  match l with
  | [] => true
  | x :: r => negb (mem x r) && distinct r
  end.

Fixpoint py_type_eqb (a b : py_type) : bool :=
  match a, b with
  | TInt, TInt | TStr, TStr | TBool, TBool | TDate, TDate
  | TDatetime, TDatetime | TDecimal, TDecimal | TDict, TDict => true
  | TEnum e, TEnum e' => enum_class_eqb e e'
  | TOptional t, TOptional t' => py_type_eqb t t'
  | TList t, TList t' => py_type_eqb t t'
  | TModel c, TModel c' => String.eqb c c'
  | _, _ => false
  end.

(** The limit [a] lets through whatever the limit [b] does. *)
Definition limit_weaker (a b : option nat) : bool :=
  match a with
  | None => true
  | Some n => match b with Some m => Nat.leb m n | None => false end
  end.

(** The field [g] accepts what the field [f] returns: the same annotation
    under limits that are no stricter. *)
Definition field_accepts (g f : FieldInfo) : bool :=
  py_type_eqb (annotation f) (annotation g)
  && limit_weaker (field_max_length (args g)) (field_max_length (args f))
  && limit_weaker (field_decimal_places (args g)) (field_decimal_places (args f)).

(** Whether an instance of [m1], with the values [pre] put in front of it,
    supplies the field [g]: [pre] gives it, or [m1] has a field of that
    name that [g] accepts, or [g] has a default to fall back on. *)
Definition supplied_by (m1 : Model) (pre : kwargs) (g : FieldInfo) : bool :=
  match lookup (name g) pre with
  | Some _ => true
  | None =>
      match find_field (name g) m1 with
      | Some f => field_accepts g f
      | None => is_some (field_default (args g))
      end
  end.

Definition supplies (m1 : Model) (pre : kwargs) (m2 : Model) : bool :=
  forallb (supplied_by m1 pre) (model_fields m2).

(** The fields of [m2] that take their value from an instance of [m1]. *)
Definition taken_from (m1 : Model) (pre : kwargs) (m2 : Model) : list string :=
  map name
    (filter (fun g => negb (is_some (lookup (name g) pre))
                      && is_some (find_field (name g) m1))
       (model_fields m2)).

Section Fixed.

Variable sub : string -> kwargs -> result value.
Variable utcnow : nat -> Z.

(** The default of the field [f], were it evaluated at clock reading
    [c], passes the field's own validation unchanged. *)
Definition default_passes (c : nat) (f : FieldInfo) : Prop :=
  match field_default (args f) with
  | Some d =>
      check_field sub f (fst (eval_default utcnow d c))
      = Ok (fst (eval_default utcnow d c))
  | None => True
  end.

(** How validation comes by the value [v'] of the field [f]: from the
    argument given for it, or from its default. *)
Definition produced (f : FieldInfo) (kw : kwargs) (v' : value) : Prop :=
  match lookup (name f) kw with
  | Some v => check_field sub f v = Ok v'
  | None =>
      exists d c, field_default (args f) = Some d /\
                  v' = fst (eval_default utcnow d c)
  end.

End Fixed.

(** Every default of [m] passes its own field, whatever the clock reads. *)
Definition defaults_pass (m : Model) : Prop :=
  forall sub utcnow c, Forall (default_passes sub utcnow c) (model_fields m).

(** Validating an instance again gives the instance back. *)
Definition revalidates (sub : string -> kwargs -> result value) : Prop :=
  forall c kv v, sub c kv = Ok v -> exists inst, v = VDict inst /\ sub c inst = Ok v.

(** ** From one class to another *)

(** The persistent model that a Create schema is for. *)
Definition create_pairs : list (Model * Model) :=
  [ (PersonCreate, Person);
    (FamilyBackgroundCreate, FamilyBackground);
    (MarriagePreferencesCreate, MarriagePreferences) ].

(** What a response adds to a stored letter: its id and the two names. *)
Definition response_extra (z : Z) (husband wife : string) : kwargs :=
  [ ("id", VInt z); ("husband_name", VStr husband); ("wife_name", VStr wife) ].

(** The letter [full_letter] as validation returns it when the clock
    reads 0. *)
Definition stored_letter : kwargs :=
  Eval vm_compute in
    match validate (fun _ => 0%Z) MarriageLetter full_letter 0 with
    | Ok r => r
    | Err _ _ => []
    end.

(** The errors that report the required fields of [m] as missing. *)
Definition missing_errors (m : Model) : list error :=
  map (fun f => ErrorDetails [Key (name f)] missing)
    (filter is_required (model_fields m)).

(** [s] without a final ["_id"]. *)
Fixpoint strip_id (s : string) : option string :=
  match s with
  | EmptyString => None
  | String c r =>
      if String.eqb s "_id" then Some EmptyString
      else option_map (String c) (strip_id r)
  end.

(** The field of a Create schema that stands for the foreign key [f]: it
    is named [..._data] for [..._id], is annotated with the Create schema
    of the table the key points into, optional when the key is, and keeps
    the default of the key. *)
Definition data_field (f : FieldInfo) : option FieldInfo :=
  match field_foreign_key (args f), strip_id (name f) with
  | Some target, Some p =>
      match find (has_tablename (before_dot target)) (table_models module_classes) with
      | Some n =>
          let c := TModel (String.append (cls_name n) "Create") in
          Some (Field (String.append p "_data")
                  (if is_optional_type (annotation f) then TOptional c else c)
                  (filter (fun x => negb (is_constraint x)) (args f)))
      | None => None
      end
  | _, _ => None
  end.

(** What the Create schema [c] of the model [m] is expected to declare:
    for a foreign key its data field, for another field shared by name
    the field itself. *)
Definition create_view (m c : Model) : list FieldInfo :=
  flat_map (fun f =>
              match field_foreign_key (args f) with
              | Some _ => match data_field f with Some d => [d] | None => [] end
              | None => if mem (name f) (field_names c) then [f] else []
              end)
    (model_fields m).

(** The fields of [m] that its Create schema [c] leaves to the server. *)
Definition server_fields (m c : Model) : list string :=
  map name
    (filter (fun f => negb (is_some (field_foreign_key (args f)))
                      && negb (mem (name f) (field_names c)))
       (model_fields m)).

(** A person as [PersonCreate] returns it. *)
Definition created_person : kwargs :=
  Eval vm_compute in
    match validate (fun _ => 0%Z) PersonCreate (person_input "Amir Khan" "islam") 0 with
    | Ok r => r
    | Err _ _ => []
    end.

(** The fields that a response shares with the letter it reports. *)
Definition response_letter_fields : list string :=
  [ "letter_type"; "reference_number"; "purpose"; "contact_person"; "contact_phone";
    "contact_email"; "is_printed"; "print_date"; "created_at"; "updated_at" ].

(** ** Fields by kind *)

Definition defaults_to_none (f : FieldInfo) : bool :=
  match field_default (args f) with
  | Some (DefaultValue VNone) => true
  | _ => false
  end.

(** The optional fields of [m] that declare no default. *)
Definition optional_without_default (m : Model) : list string :=
  map name
    (filter (fun f => is_optional_type (annotation f) && is_required f) (model_fields m)).

Definition is_str_value (v : value) : bool :=
  match v with VStr _ => true | _ => false end.

(** A value that is a string, plain or a member of a string enumeration. *)
Definition is_text_value (v : value) : bool :=
  match v with VStr _ | VEnum _ _ => true | _ => false end.

(** The fields of the Create schemas that carry a decimal. *)
Definition decimal_fields (m : Model) : list (string * option nat) :=
  map (fun f => (name f, field_decimal_places (args f)))
    (filter (fun f => is_optional_decimal (annotation f)) (model_fields m)).

(** * Properties *)

(** ** The foreign keys of a marriage letter *)

Lemma held_references_bound (ks : list string) (inst : kwargs) :
  List.length (held_references ks inst) <= List.length ks.
Proof.
  unfold held_references.
  induction ks as [|k ks IH]; simpl; [lia|].
  destruct (lookup k inst) as [[]|]; simpl; lia.
Qed.

(** C1: [MarriageLetter] declares exactly six distinct foreign keys into
    the persons table, exactly two into family_backgrounds and exactly two
    into marriage_preferences, and no other foreign key; so an instance
    holds at most six person references, two family references and two
    preferences references, and a letter can hold all ten. *)
Theorem marriage_letter_foreign_keys :
  references_to Person MarriageLetter
    = ["husband_id"; "husband_father_id"; "husband_mother_id";
       "wife_id"; "wife_father_id"; "wife_mother_id"] /\
  references_to FamilyBackground MarriageLetter
    = ["husband_family_id"; "wife_family_id"] /\
  references_to MarriagePreferences MarriageLetter
    = ["husband_preferences_id"; "wife_preferences_id"] /\
  NoDup (all_foreign_keys MarriageLetter) /\
  List.length (all_foreign_keys MarriageLetter) = 10 /\
  (forall inst : kwargs,
      List.length (held_references (references_to Person MarriageLetter) inst) <= 6 /\
      List.length (held_references (references_to FamilyBackground MarriageLetter) inst) <= 2 /\
      List.length (held_references (references_to MarriagePreferences MarriageLetter) inst) <= 2) /\
  (forall utcnow calls,
      exists inst,
        validate utcnow MarriageLetter full_letter calls = Ok inst /\
        List.length (held_references (references_to Person MarriageLetter) inst) = 6 /\
        List.length (held_references (references_to FamilyBackground MarriageLetter) inst) = 2 /\
        List.length (held_references (references_to MarriagePreferences MarriageLetter) inst) = 2).
Proof.
  split; [reflexivity|].
  split; [reflexivity|].
  split; [reflexivity|].
  split.
  { cbv [all_foreign_keys]. simpl.
    repeat (constructor; [simpl; intuition discriminate|]). constructor. }
  split; [reflexivity|].
  split.
  - intro inst.
    pose proof (held_references_bound (references_to Person MarriageLetter) inst) as HP.
    pose proof (held_references_bound (references_to FamilyBackground MarriageLetter) inst) as HF.
    pose proof (held_references_bound (references_to MarriagePreferences MarriageLetter) inst) as HM.
    change (List.length (references_to Person MarriageLetter)) with 6 in HP.
    change (List.length (references_to FamilyBackground MarriageLetter)) with 2 in HF.
    change (List.length (references_to MarriagePreferences MarriageLetter)) with 2 in HM.
    auto.
  - intros utcnow calls. eexists. split; [reflexivity|].
    repeat split.
Qed.

(** ** The entities of the foreign-key graph *)

(** The foreign-key graph does not have six entities. *)
Lemma fk_graph_entities_not_six :
  List.length (fk_graph_entities module_classes) = 4 /\
  Nat.eqb (List.length (fk_graph_entities module_classes)) 6 = false.
Proof. split; reflexivity. Qed.

(** C4 (amended): the module defines exactly four tables, all four take
    part in the foreign-key graph, and every edge of the graph leaves
    [MarriageLetter]: it points into each of the three other tables and
    into no table else. *)
Theorem fk_graph_has_four_entities :
  map cls_name (table_models module_classes)
    = ["Person"; "MarriagePreferences"; "FamilyBackground"; "MarriageLetter"] /\
  map cls_name (fk_graph_entities module_classes)
    = ["Person"; "MarriagePreferences"; "FamilyBackground"; "MarriageLetter"] /\
  List.length (fk_graph_entities module_classes) = 4 /\
  Forall (fun a =>
            Forall (fun b =>
                      fk_edge a b
                      = String.eqb (cls_name a) "MarriageLetter"
                        && negb (String.eqb (cls_name b) "MarriageLetter"))
              (table_models module_classes))
    (table_models module_classes).
Proof.
  split; [reflexivity|].
  split; [reflexivity|].
  split; [reflexivity|].
  repeat (constructor; [repeat (constructor; [reflexivity|]); constructor|]).
  constructor.
Qed.

(** ** The constraints of the persistent models *)

(** [MarriageLetter.reference_number] is declared unique, a constraint
    that is neither presence nor length. *)
Lemma reference_number_is_unique :
  exists f,
    In MarriageLetter (table_models module_classes) /\
    In f (model_fields MarriageLetter) /\
    name f = "reference_number" /\
    field_unique (args f) = true /\
    length_constraint_only f = false.
Proof.
  exists (Field "reference_number" TStr [unique; max_length 50]).
  split; [simpl; auto|].
  split; [simpl; auto 10|].
  repeat split.
Qed.

(** C2 (amended): in the persistent models a length limit is declared on
    exactly the string fields, and the fields that carry a constraint
    other than presence and length are exactly: the primary key [id] of
    each model, the ten foreign keys of [MarriageLetter], the optional
    decimal fields (a number of decimal places), and
    [MarriageLetter.reference_number], the one field declared unique. *)
Theorem persistent_constraints :
  Forall (fun m => Forall (declared_constraints m) (model_fields m))
    (table_models module_classes).
Proof.
  repeat (constructor;
          [repeat (constructor; [repeat split|]); constructor|]).
  constructor.
Qed.

(** ** The Create schemas *)

(** C3: each Create schema declares exactly the data fields of the
    persistent model it stands for, without [id], [created_at] and the
    relationship attributes, in the same order and with the same
    annotation, default and length limit. *)
Theorem create_schemas_mirror_models :
  mirrors PersonCreate Person /\
  mirrors FamilyBackgroundCreate FamilyBackground /\
  mirrors MarriagePreferencesCreate MarriagePreferences.
Proof. repeat split. Qed.

(** ** Nesting *)

(** The classes that annotations name are classes of the module that name
    no class themselves and never read the clock. *)
Lemma nested_classes_are_flat :
  Forall (fun m =>
            Forall (fun c => exists n,
                        find_class c module_classes = Some n /\
                        referenced_classes n = [] /\
                        reads_clock n = false)
              (referenced_classes m))
    module_classes.
Proof.
  repeat (constructor;
          [repeat (constructor; [eexists; repeat split|]); constructor|]).
  constructor.
Qed.

(** ** Validation, field by field *)

Section ValidateFacts.

Variable sub : string -> kwargs -> result value.
Variable utcnow : nat -> Z.

Lemma collected_errors_nil (out : list (string * result value)) :
  collected_errors out = [] <-> forallb (fun o => is_ok (snd o)) out = true.
Proof.
  induction out as [|[k r] out IH]; simpl; [tauto|].
  destruct r as [v|e more]; simpl.
  - exact IH.
  - split; discriminate.
Qed.

Lemma validate_fields_passes (fs : list FieldInfo) (kw : kwargs) :
  forall calls,
    forallb (fun o => is_ok (snd o)) (validate_fields sub utcnow fs kw calls)
    = forallb (fun f => field_passes sub f kw) fs.
Proof.
  induction fs as [|f fs IH]; intro calls; simpl; [reflexivity|].
  unfold field_passes at 1.
  destruct (lookup (name f) kw) as [v|].
  - simpl. now rewrite IH.
  - destruct (field_default (args f)) as [d|]; simpl.
    + destruct (eval_default utcnow d calls) as [v calls']. simpl. apply IH.
    + reflexivity.
Qed.

(** Validation succeeds exactly when every field is satisfied. *)
Lemma model_validate_passes (m : Model) (kw : kwargs) (calls : nat) :
  is_ok (model_validate sub utcnow m kw calls)
  = forallb (fun f => field_passes sub f kw) (model_fields m).
Proof.
  rewrite <- (validate_fields_passes (model_fields m) kw calls).
  unfold model_validate.
  pose proof (collected_errors_nil
                (validate_fields sub utcnow (model_fields m) kw calls)) as H.
  destruct (collected_errors _) as [|e more]; simpl.
  - symmetry. now apply H.
  - destruct (forallb _ _); [|reflexivity].
    destruct H as [_ H]. discriminate (H eq_refl).
Qed.

Lemma model_validate_override (m : Model) (k : string) (v : value) (kw : kwargs)
      (calls : nat) :
  is_ok (model_validate sub utcnow m ((k, v) :: kw) calls)
  = value_accepted sub m k v && others_pass sub m k kw.
Proof.
  rewrite model_validate_passes. unfold value_accepted, others_pass.
  induction (model_fields m) as [|f fs IH]; simpl; [reflexivity|].
  rewrite IH. unfold field_passes at 1. simpl.
  destruct (String.eqb (name f) k); simpl.
  - destruct (is_ok (check_field sub f v)); simpl; [reflexivity|].
    reflexivity.
  - fold (field_passes sub f kw).
    destruct (field_passes sub f kw); simpl; [reflexivity|].
    now rewrite andb_false_r.
Qed.

(** Replacing an accepted value of a field leaves validation as it is when
    the new value is accepted, and makes it fail otherwise. *)
Lemma model_validate_replace (m : Model) (k : string) (v v0 : value) (kw : kwargs)
      (calls : nat) :
  value_accepted sub m k v0 = true ->
  is_ok (model_validate sub utcnow m ((k, v) :: kw) calls)
  = value_accepted sub m k v
    && is_ok (model_validate sub utcnow m ((k, v0) :: kw) calls).
Proof.
  intro H0. rewrite !model_validate_override, H0. reflexivity.
Qed.

End ValidateFacts.

(** ** Length limits *)

Lemma length_within_unlimited (t : py_type) (v : value) :
  length_within t None v = true.
Proof.
  induction t; simpl; try reflexivity; destruct v; auto.
Qed.

Section LengthFacts.

Variable sub : string -> kwargs -> result value.

(** A value passes a field exactly when it is within the length limit and
    passes the field with the limit taken out. *)
Lemma validate_value_length (t : py_type) (ml dp : option nat) (v : value) :
  is_ok (validate_value sub t ml dp v)
  = length_within t ml v && is_ok (validate_value sub t None dp v).
Proof.
  revert v. induction t; intro v; simpl; try (destruct v; reflexivity).
  - destruct v; try reflexivity.
    destruct (within (String.length s) ml); reflexivity.
  - destruct v; try reflexivity; apply IHt.
  - destruct v; try reflexivity.
    destruct (within (List.length l) ml); reflexivity.
Qed.

Lemma is_ok_check_field (f : FieldInfo) (v : value) :
  is_ok (check_field sub f v)
  = is_ok (validate_value sub (annotation f) (field_max_length (args f))
             (field_decimal_places (args f)) v).
Proof.
  unfold check_field. destruct (validate_value _ _ _ _ _); reflexivity.
Qed.

Lemma drop_max_length_args (a : list field_arg) :
  field_max_length (filter (fun x => negb (is_max_length x)) a) = None /\
  field_default (filter (fun x => negb (is_max_length x)) a) = field_default a /\
  field_decimal_places (filter (fun x => negb (is_max_length x)) a)
  = field_decimal_places a.
Proof.
  induction a as [|x a (IH1 & IH2 & IH3)]; simpl; [auto|].
  destruct x; simpl; auto.
Qed.

Lemma field_passes_length (f : FieldInfo) (kw : kwargs) :
  field_passes sub f kw
  = field_length_ok f kw && field_passes sub (drop_max_length f) kw.
Proof.
  unfold field_passes, field_length_ok. simpl.
  destruct (drop_max_length_args (args f)) as (H1 & H2 & H3).
  destruct (lookup (name f) kw) as [v|].
  - rewrite !is_ok_check_field. simpl. rewrite H1, H3.
    apply validate_value_length.
  - now rewrite H2.
Qed.

Lemma without_max_length_fields (m : Model) :
  model_fields (without_max_length m) = map drop_max_length (model_fields m).
Proof.
  unfold model_fields, without_max_length. simpl.
  induction (attrs m) as [|a l IH]; simpl; [reflexivity|].
  destruct a; simpl; now rewrite IH.
Qed.

(** Validation factors into the length limits and the rest. *)
Lemma model_validate_length (utcnow : nat -> Z) (m : Model) (kw : kwargs) (calls : nat) :
  is_ok (model_validate sub utcnow m kw calls)
  = lengths_within m kw
    && is_ok (model_validate sub utcnow (without_max_length m) kw calls).
Proof.
  rewrite !model_validate_passes, without_max_length_fields. unfold lengths_within.
  induction (model_fields m) as [|f fs IH]; simpl; [reflexivity|].
  rewrite IH, field_passes_length.
  destruct (field_length_ok f kw), (field_passes sub (drop_max_length f) kw),
    (forallb (fun f0 => field_length_ok f0 kw) fs); reflexivity.
Qed.

End LengthFacts.

Lemma lengths_within_spec (m : Model) (kw : kwargs) :
  limits_on_strings m = true ->
  lengths_within m kw = true <-> strings_within_limits m kw.
Proof.
  unfold limits_on_strings, lengths_within, strings_within_limits.
  rewrite !forallb_forall. intro W. split.
  - intros H f n s Hf Hn Hs.
    specialize (H f Hf). specialize (W f Hf).
    unfold field_length_ok in H. rewrite Hs, Hn in H. rewrite Hn in W. simpl in W.
    rewrite orb_false_r in W.
    destruct (annotation f); try discriminate W.
    simpl in H. now apply Nat.leb_le.
  - intros H f Hf. specialize (W f Hf). unfold field_length_ok.
    destruct (lookup (name f) kw) as [v|] eqn:Hv; [|reflexivity].
    destruct (field_max_length (args f)) as [n|] eqn:Hn;
      [|apply length_within_unlimited].
    simpl in W. rewrite orb_false_r in W.
    destruct (annotation f); try discriminate W.
    destruct v; try reflexivity.
    simpl. apply Nat.leb_le. now apply (H f n s).
Qed.

(** Every string of this input is within its limit, yet the input is
    rejected: its religion is not a member of [Religion]. *)
Lemma lengths_do_not_decide_validation :
  strings_within_limits PersonCreate (person_input "Amir Khan" "atheism") /\
  is_ok (validate (fun _ => 0%Z) PersonCreate (person_input "Amir Khan" "atheism") 0)
  = false.
Proof.
  split; [|reflexivity].
  apply lengths_within_spec; reflexivity.
Qed.

(** C5 (amended): for each Create schema, validation succeeds if and only
    if every string given for a field with a declared [max_length] is no
    longer than the limit and the input passes the schema with the limits
    taken out (presence, types, enum membership, decimal places).  So an
    input with a string over its limit is always rejected, and an input
    that is otherwise valid is accepted exactly when its strings are
    within their limits; for [PersonCreate.full_name] the limit is 255. *)
Theorem length_limits_enforced :
  Forall (fun m =>
            forall utcnow kw calls,
              is_ok (validate utcnow m kw calls) = true <->
              strings_within_limits m kw /\
              is_ok (validate utcnow (without_max_length m) kw calls) = true)
    create_schemas /\
  (exists f,
      find_field "full_name" PersonCreate = Some f /\
      annotation f = TStr /\ field_max_length (args f) = Some 255) /\
  (forall utcnow s calls,
      is_ok (validate utcnow PersonCreate
               (("full_name", VStr s) :: ("religion", VStr "islam") :: person_rest) calls)
      = Nat.leb (String.length s) 255).
Proof.
  split; [|split].
  - repeat (constructor;
            [intros utcnow kw calls; unfold validate;
             rewrite model_validate_length, andb_true_iff,
               lengths_within_spec by reflexivity;
             reflexivity|]).
    constructor.
  - eexists. split; [reflexivity|]. split; reflexivity.
  - intros utcnow s calls. unfold validate.
    rewrite model_validate_override.
    replace (others_pass validate_nested PersonCreate "full_name"
               (("religion", VStr "islam") :: person_rest))
      with true by reflexivity.
    rewrite andb_true_r. unfold value_accepted, check_field. cbn.
    destruct (Nat.leb (String.length s) 255); reflexivity.
Qed.

(** A person whose strings are within their limits, and who passes the
    other checks, validates. *)
Lemma length_limits_enforced_witness :
  is_ok (validate (fun _ => 0%Z) PersonCreate (person_input "Amir Khan" "islam") 0)
  = true.
Proof.
  apply (proj2 (Forall_inv (proj1 length_limits_enforced) (fun _ => 0%Z)
                  (person_input "Amir Khan" "islam") 0)).
  split; [|reflexivity].
  apply lengths_within_spec; reflexivity.
Defined.

(** ** Enum membership *)

(** C6: the [religion] field of [PersonCreate] accepts exactly the six
    values of [Religion] and the [letter_type] field of
    [MarriageLetterCreate] exactly the five values of [LetterType]: given
    any other string validation fails, whatever the other arguments, and
    given one of them validation is decided by the other arguments alone. *)
Theorem enum_membership_enforced :
  enum_values ReligionE
    = ["islam"; "christianity"; "hinduism"; "buddhism"; "judaism"; "other"] /\
  enum_values LetterTypeE = ["N1"; "N2"; "N3"; "N4"; "N5"] /\
  (exists f, find_field "religion" PersonCreate = Some f /\
             annotation f = TEnum ReligionE) /\
  (exists f, find_field "letter_type" MarriageLetterCreate = Some f /\
             annotation f = TEnum LetterTypeE) /\
  (forall utcnow s kw calls,
      is_ok (validate utcnow PersonCreate (("religion", VStr s) :: kw) calls)
      = mem s (enum_values ReligionE)
        && is_ok (validate utcnow PersonCreate (("religion", VStr "islam") :: kw) calls)) /\
  (forall utcnow s kw calls,
      is_ok (validate utcnow MarriageLetterCreate (("letter_type", VStr s) :: kw) calls)
      = mem s (enum_values LetterTypeE)
        && is_ok (validate utcnow MarriageLetterCreate (("letter_type", VStr "N1") :: kw) calls)) /\
  (forall utcnow s calls,
      is_ok (validate utcnow PersonCreate
               (("religion", VStr s) :: ("full_name", VStr "Amir Khan") :: person_rest) calls)
      = mem s (enum_values ReligionE)) /\
  (forall utcnow s calls,
      is_ok (validate utcnow MarriageLetterCreate (("letter_type", VStr s) :: letter_rest) calls)
      = mem s (enum_values LetterTypeE)).
Proof.
  assert (HR : forall utcnow s kw calls,
             is_ok (validate utcnow PersonCreate (("religion", VStr s) :: kw) calls)
             = mem s (enum_values ReligionE)
               && is_ok (validate utcnow PersonCreate
                           (("religion", VStr "islam") :: kw) calls)).
  { intros utcnow s kw calls. unfold validate.
    rewrite (model_validate_replace validate_nested utcnow PersonCreate "religion"
               (VStr s) (VStr "islam") kw calls eq_refl).
    f_equal. unfold value_accepted, check_field, mem. cbn.
    match goal with |- context [if ?b then _ else _] => destruct b end; reflexivity. }
  assert (HL : forall utcnow s kw calls,
             is_ok (validate utcnow MarriageLetterCreate (("letter_type", VStr s) :: kw) calls)
             = mem s (enum_values LetterTypeE)
               && is_ok (validate utcnow MarriageLetterCreate
                           (("letter_type", VStr "N1") :: kw) calls)).
  { intros utcnow s kw calls. unfold validate.
    rewrite (model_validate_replace validate_nested utcnow MarriageLetterCreate
               "letter_type" (VStr s) (VStr "N1") kw calls eq_refl).
    f_equal. unfold value_accepted, check_field, mem. cbn.
    match goal with |- context [if ?b then _ else _] => destruct b end; reflexivity. }
  split; [reflexivity|]. split; [reflexivity|].
  split; [eexists; split; reflexivity|].
  split; [eexists; split; reflexivity|].
  split; [exact HR|]. split; [exact HL|].
  split; intros utcnow s calls.
  - rewrite HR.
    replace (is_ok (validate utcnow PersonCreate _ calls)) with true.
    + apply andb_true_r.
    + unfold validate. now rewrite model_validate_passes.
  - rewrite HL.
    replace (is_ok (validate utcnow MarriageLetterCreate _ calls)) with true.
    + apply andb_true_r.
    + unfold validate. now rewrite model_validate_passes.
Qed.

(** ** Print requests *)

(** C7: [letter_id] is the only required field of [LetterPrintRequest],
    and a request constructed from a [letter_id] alone has [print_format]
    ["pdf"], [include_photos] false, and an empty [letterhead] and
    [additional_notes]. *)
Theorem print_request_defaults :
  map name (filter is_required (model_fields LetterPrintRequest)) = ["letter_id"] /\
  (forall utcnow n calls,
      construct utcnow LetterPrintRequest [("letter_id", VInt n)] calls
      = Ok [ ("letter_id", VInt n); ("print_format", VStr "pdf");
             ("include_photos", VBool false); ("letterhead", VStr "");
             ("additional_notes", VStr "") ]).
Proof.
  split; [reflexivity|].
  intros utcnow n calls. reflexivity.
Qed.

(** ** The references and the defaults of a marriage letter *)

(** C9: the required fields of [MarriageLetter] are its type, reference
    number, husband, wife, purpose, contact person and contact phone; a
    letter constructed from these alone has [is_printed] false,
    [print_date] [None], both marital statuses [SINGLE] and an empty
    [custom_fields], and so has the instance that validation returns when
    it accepts the same arguments. *)
Theorem new_letter_defaults :
  map name (filter is_required (model_fields MarriageLetter))
    = [ "letter_type"; "reference_number"; "husband_id"; "wife_id";
        "purpose"; "contact_person"; "contact_phone" ] /\
  (forall utcnow lt ref h w purpose person phone calls,
      exists inst,
        construct utcnow MarriageLetter
          (required_letter lt ref h w purpose person phone) calls = Ok inst /\
        has_letter_defaults inst /\
        (is_ok (validate utcnow MarriageLetter
                  (required_letter lt ref h w purpose person phone) calls) = true ->
         validate utcnow MarriageLetter
           (required_letter lt ref h w purpose person phone) calls = Ok inst)).
Proof.
  split; [reflexivity|].
  intros utcnow lt ref h w purpose person phone calls.
  eexists. split; [reflexivity|]. split; [repeat split|].
  unfold validate, model_validate, required_letter. cbn. unfold check_field. cbn.
  destruct lt; cbn;
    destruct (Nat.leb (String.length ref) 50);
    destruct (Nat.leb (String.length purpose) 500);
    destruct (Nat.leb (String.length person) 255);
    destruct (Nat.leb (String.length phone) 20);
    cbn; intro H; try discriminate H; reflexivity.
Qed.

(** A letter given by its required fields validates and has the defaults. *)
Lemma new_letter_defaults_witness :
  exists inst,
    validate (fun _ => 0%Z) MarriageLetter
      (required_letter N1 "ML-0001" 1 2 "introduction" "registrar" "555-0100") 0
    = Ok inst /\
    has_letter_defaults inst.
Proof.
  destruct (proj2 new_letter_defaults (fun _ => 0%Z) N1 "ML-0001" 1%Z 2%Z
              "introduction" "registrar" "555-0100" 0)
    as (inst & _ & Hd & Hv).
  exists inst. split; [apply Hv; reflexivity|exact Hd].
Defined.

(** ** Summaries *)

(** C10: every field of [LetterSummary] is a field of
    [MarriageLetterResponse] with the same name and annotation, and every
    response instance validates as a summary that agrees with it on the
    seven fields. *)
Theorem summary_projects_response :
  field_names LetterSummary
    = [ "id"; "letter_type"; "reference_number"; "husband_name"; "wife_name";
        "created_at"; "is_printed" ] /\
  Forall (fun g => exists f,
              find_field (name g) MarriageLetterResponse = Some f /\
              annotation f = annotation g)
    (model_fields LetterSummary) /\
  (forall utcnow kw calls r calls',
      validate utcnow MarriageLetterResponse kw calls = Ok r ->
      exists s,
        validate utcnow LetterSummary r calls' = Ok s /\
        map fst s = field_names LetterSummary /\
        Forall (fun k => lookup k s = lookup k r) (field_names LetterSummary)).
Proof.
  split; [reflexivity|]. split.
  { repeat (constructor; [eexists; split; reflexivity|]). constructor. }
  intros utcnow kw calls r calls' H.
  assert (Hok : is_ok (validate utcnow MarriageLetterResponse kw calls) = true)
    by (rewrite H; reflexivity).
  unfold validate in Hok. rewrite model_validate_passes in Hok.
  unfold field_passes, check_field in Hok. cbn in Hok.
  repeat (apply andb_prop in Hok; destruct Hok as [? Hok]). clear Hok.
  unfold validate, model_validate, check_field in H. cbn in H.
  repeat match goal with
         | Hp : context [lookup ?k kw] |- _ =>
             lazymatch Hp with H => fail | _ => idtac end;
             destruct (lookup k kw) as [[]|]; cbn in Hp; try discriminate Hp;
             try match type of Hp with
               | context [if ?c then _ else _] =>
                   destruct c eqn:?; cbn in Hp; try discriminate Hp
               end;
             clear Hp
         end.
  all: unfold check_field in H; cbn in H;
    repeat match goal with
           | E : _ = true |- _ => rewrite E in H; cbn in H
           end;
    injection H as <-.
  all: eexists; split;
    [ unfold validate, model_validate; cbn; unfold check_field; cbn;
      repeat match goal with
             | E : _ = true |- _ => rewrite E; cbn
             end;
      reflexivity
    | split; [reflexivity|] ].
  all: repeat (constructor; [reflexivity|]); constructor.
Qed.

(** The summary of a response. *)
Lemma summary_projects_response_witness :
  exists s,
    validate (fun _ => 0%Z) LetterSummary sample_response 0 = Ok s /\
    map fst s = field_names LetterSummary /\
    Forall (fun k => lookup k s = lookup k sample_response) (field_names LetterSummary).
Proof.
  apply (proj2 (proj2 summary_projects_response)
           (fun _ => 0%Z) sample_response 0 sample_response 0).
  reflexivity.
Defined.

(** * Further properties of the schema *)

(** ** Enumeration values *)

(** X1: in each of the four enumerations a member is found again from its
    value, and a value finds only the member that has it; so the values
    of an enumeration are pairwise distinct and the listed members are all
    there are. *)
Theorem enum_value_round_trip :
  (forall s m, MaritalStatus_of_value s = Some m <-> s = MaritalStatus_value m) /\
  (forall s m, EducationLevel_of_value s = Some m <-> s = EducationLevel_value m) /\
  (forall s m, Religion_of_value s = Some m <-> s = Religion_value m) /\
  (forall s m, LetterType_of_value s = Some m <-> s = LetterType_value m).
Proof.
  repeat split; intro H;
    try (apply find_some in H; destruct H as [_ H];
         apply String.eqb_eq in H; now symmetry);
    subst s; destruct m; reflexivity.
Qed.

(** ** Relationships and keys *)

(** X2: every relationship of every table is matched on the other side:
    the class it names is a table with a relationship named by its
    [back_populates], which names the first class and relationship back
    and goes by the same foreign key; one side of each pair is a
    collection and the other a single letter-side reference. *)
Theorem relationships_are_paired :
  Forall (fun m => Forall (paired m) (model_relationships m))
    (table_models module_classes).
Proof.
  repeat (constructor;
          [repeat (constructor;
                   [do 2 eexists; repeat (split; [reflexivity|]); reflexivity|]);
           constructor|]).
  constructor.
Qed.

(** X3: each of the ten relationships of [MarriageLetter] goes by a
    foreign key field of the letter that points into the table of the
    related class; the relationship is required ([Person]) exactly when
    the key is a required integer and optional exactly when the key is
    optional; and the ten relationships use the ten foreign keys, each
    once. *)
Theorem letter_relationships_follow_keys :
  Forall keyed (model_relationships MarriageLetter) /\
  NoDup (map relationship_key (model_relationships MarriageLetter)) /\
  (forall k, In (Some k) (map relationship_key (model_relationships MarriageLetter))
             <-> In k (all_foreign_keys MarriageLetter)).
Proof.
  split; [|split].
  - repeat (constructor;
            [do 4 eexists; repeat (split; [reflexivity|]); reflexivity|]).
    constructor.
  - cbv. repeat (constructor; [simpl; intuition discriminate|]). constructor.
  - intro k.
    change (map relationship_key (model_relationships MarriageLetter))
      with (map Some
              ["husband_id"; "wife_id"; "husband_father_id"; "husband_mother_id";
               "wife_father_id"; "wife_mother_id"; "husband_family_id";
               "wife_family_id"; "husband_preferences_id"; "wife_preferences_id"]).
    change (all_foreign_keys MarriageLetter)
      with ["husband_id"; "husband_father_id"; "husband_mother_id";
            "husband_family_id"; "husband_preferences_id"; "wife_id";
            "wife_father_id"; "wife_mother_id"; "wife_family_id";
            "wife_preferences_id"].
    rewrite in_map_iff. split.
    + intros (x & Hx & Hin). injection Hx as ->. simpl in *. tauto.
    + intro Hin. exists k. split; [reflexivity|]. simpl in *. tauto.
Qed.

(** X4: every foreign key of every table names a table of the module and
    the primary key column of that table, of the same base type; and each
    table has exactly one primary key, [id]. *)
Theorem foreign_keys_resolve :
  Forall (fun m => Forall resolves (model_fields m) /\ primary_keys m = ["id"])
    (table_models module_classes).
Proof.
  repeat (constructor;
          [split;
           [repeat (constructor;
                    [first [exact I
                           |do 2 eexists; repeat (split; [reflexivity|]); reflexivity]|]);
            constructor
           |reflexivity]|]).
  constructor.
Qed.

Lemma distinct_NoDup (l : list string) : distinct l = true -> NoDup l.
Proof.
  induction l as [|x l IH]; simpl; [constructor|].
  intro H. apply andb_prop in H. destruct H as [Hx Hl].
  constructor; [|now apply IH].
  intro Hin. unfold mem in Hx.
  assert (E : existsb (String.eqb x) l = true).
  { apply existsb_exists. exists x. split; [assumption|apply String.eqb_refl]. }
  rewrite E in Hx. discriminate.
Qed.

(** X5: within each class no attribute name is declared twice, fields and
    relationships taken together; no two classes share a name and no two
    tables a table name. *)
Theorem names_are_unique :
  Forall (fun m => NoDup (attr_names m)) module_classes /\
  NoDup (map cls_name module_classes) /\
  NoDup (tablenames module_classes).
Proof.
  split; [|split].
  - repeat (constructor; [apply distinct_NoDup; reflexivity|]). constructor.
  - apply distinct_NoDup. reflexivity.
  - apply distinct_NoDup. reflexivity.
Qed.

(** ** Validating what validation returned *)

Lemma enum_class_eqb_refl (e : enum_class) : enum_class_eqb e e = true.
Proof. destruct e; reflexivity. Qed.

Lemma py_type_eqb_eq (a b : py_type) : py_type_eqb a b = true -> a = b.
Proof.
  revert b. induction a; destruct b; simpl; try discriminate; intro H;
    try reflexivity.
  - destruct e, e0; try discriminate H; reflexivity.
  - f_equal. now apply IHa.
  - f_equal. now apply IHa.
  - f_equal. now apply String.eqb_eq.
Qed.

Lemma within_weaker (n : nat) (a b : option nat) :
  limit_weaker a b = true -> within n b = true -> within n a = true.
Proof.
  destruct a as [x|], b as [y|]; simpl; try discriminate; try reflexivity.
  rewrite !Nat.leb_le. lia.
Qed.

Lemma lookup_app (k : string) (a b : kwargs) :
  lookup k (a ++ b)
  = match lookup k a with Some v => Some v | None => lookup k b end.
Proof.
  induction a as [|[k' v] a IH]; simpl; [reflexivity|].
  destruct (String.eqb k k'); [reflexivity|exact IH].
Qed.

Lemma lookup_absent (k : string) (r : kwargs) :
  ~ In k (map fst r) -> lookup k r = None.
Proof.
  induction r as [|[k' v] r IH]; simpl; [reflexivity|].
  intro H. destruct (String.eqb k k') eqn:E.
  - apply String.eqb_eq in E. subst. tauto.
  - apply IH. tauto.
Qed.

(** Two instances with the same distinct keys in the same order and the
    same values under them are the same. *)
Lemma same_lookups (a b : kwargs) :
  map fst a = map fst b ->
  NoDup (map fst a) ->
  (forall k, In k (map fst a) -> lookup k a = lookup k b) ->
  a = b.
Proof.
  revert b. induction a as [|[k v] a IH]; intros [|[k' v'] b]; simpl;
    try discriminate; [reflexivity|].
  intros Hk Hd Hl. injection Hk as <- Hk. inversion Hd as [|? ? Hn Hd']; subst.
  pose proof (Hl k (or_introl eq_refl)) as Hv.
  rewrite String.eqb_refl in Hv. injection Hv as <-.
  f_equal. apply IH; [assumption|assumption|].
  intros j Hj. specialize (Hl j (or_intror Hj)).
  destruct (String.eqb j k) eqn:E; [|exact Hl].
  apply String.eqb_eq in E. subst. contradiction.
Qed.

Section RevalidateFacts.

Variable sub : string -> kwargs -> result value.
Variable utcnow : nat -> Z.
Hypothesis sub_revalidates : revalidates sub.

Lemma validate_items_ok (f : value -> result value) :
  forall l i vs,
    validate_items f l i = (vs, []) -> Forall2 (fun x v => f x = Ok v) l vs.
Proof.
  induction l as [|x l IH]; simpl; intros i vs H.
  - injection H as <-. constructor.
  - destruct (validate_items f l (S i)) as [vs' es] eqn:E.
    destruct (f x) as [v|e more] eqn:F.
    + injection H as <- ->. constructor; [assumption|]. now apply (IH (S i)).
    + simpl in H. discriminate H.
Qed.

Lemma validate_items_fixed (f : value -> result value) :
  forall vs i, Forall (fun v => f v = Ok v) vs -> validate_items f vs i = (vs, []).
Proof.
  induction vs as [|v vs IH]; simpl; intros i H; [reflexivity|].
  inversion H as [|? ? Hv Hvs]; subst.
  now rewrite (IH (S i) Hvs), Hv.
Qed.

(** A value that validation returned passes the same validation
    unchanged. *)
Lemma validate_value_idem (t : py_type) :
  forall ml dp v v',
    validate_value sub t ml dp v = Ok v' ->
    validate_value sub t ml dp v' = Ok v'.
Proof.
  unfold fail.
  induction t; intros ml dp v v' H; simpl in *.
  - destruct v; try discriminate H. now injection H as <-.
  - destruct v; try discriminate H.
    destruct (within (String.length s) ml) eqn:W; [|discriminate H].
    injection H as <-. simpl. now rewrite W.
  - destruct v; try discriminate H. now injection H as <-.
  - destruct v; try discriminate H. now injection H as <-.
  - destruct v; try discriminate H. now injection H as <-.
  - destruct v; try discriminate H.
    destruct (within (decimal_places_of unscaled scale) dp) eqn:W; [|discriminate H].
    injection H as <-. simpl. now rewrite W.
  - destruct v; try discriminate H.
    + destruct (existsb (String.eqb s) (enum_values e)) eqn:W; [|discriminate H].
      injection H as <-. simpl. now rewrite enum_class_eqb_refl, W.
    + destruct (enum_class_eqb e e0 && existsb (String.eqb v) (enum_values e)) eqn:W;
        [|discriminate H].
      injection H as <-. simpl. now rewrite W.
  - destruct v; try (injection H as <-; reflexivity);
      apply IHt in H; destruct v'; try exact H; reflexivity.
  - destruct v; try discriminate H.
    destruct (within (List.length l) ml) eqn:W; [|discriminate H].
    destruct (validate_items (validate_value sub t None None) l 0) as [vs es] eqn:E.
    destruct es; [|discriminate H]. injection H as <-.
    apply validate_items_ok in E. simpl.
    rewrite <- (Forall2_length E), W.
    rewrite validate_items_fixed; [reflexivity|].
    clear W. induction E as [|x v l vs Hx _ IH]; constructor; [|exact IH].
    now apply (IHt None None x).
  - destruct v; try discriminate H. now injection H as <-.
  - destruct v; try discriminate H.
    destruct (sub_revalidates H) as (inst & -> & Hi). exact Hi.
Qed.

(** Limits that are no stricter let the same value through. *)
Lemma validate_value_weaken (t : py_type) :
  forall ml dp ml' dp' v v',
    limit_weaker ml' ml = true ->
    limit_weaker dp' dp = true ->
    validate_value sub t ml dp v = Ok v' ->
    validate_value sub t ml' dp' v = Ok v'.
Proof.
  unfold fail.
  induction t; intros ml dp ml' dp' v v' Hm Hd H; simpl in *;
    try exact H.
  - destruct v; try discriminate H.
    destruct (within (String.length s) ml) eqn:W; [|discriminate H].
    now rewrite (within_weaker _ _ _ Hm W).
  - destruct v; try discriminate H.
    destruct (within (decimal_places_of unscaled scale) dp) eqn:W; [|discriminate H].
    now rewrite (within_weaker _ _ _ Hd W).
  - destruct v; try exact H; now apply (IHt ml dp).
  - destruct v; try discriminate H.
    destruct (within (List.length l) ml) eqn:W; [|discriminate H].
    now rewrite (within_weaker _ _ _ Hm W).
Qed.

Lemma check_field_ok (f : FieldInfo) (v v' : value) :
  check_field sub f v = Ok v' <->
  validate_value sub (annotation f) (field_max_length (args f))
    (field_decimal_places (args f)) v = Ok v'.
Proof.
  unfold check_field. destruct (validate_value _ _ _ _ _); split;
    intro H; try exact H; discriminate H.
Qed.

Lemma check_field_idem (f : FieldInfo) (v v' : value) :
  check_field sub f v = Ok v' -> check_field sub f v' = Ok v'.
Proof.
  rewrite !check_field_ok. apply validate_value_idem.
Qed.

Lemma field_accepts_ok (g f : FieldInfo) (v v' : value) :
  field_accepts g f = true ->
  check_field sub f v = Ok v' ->
  check_field sub g v = Ok v'.
Proof.
  unfold field_accepts. intro H.
  apply andb_prop in H. destruct H as [H Hd].
  apply andb_prop in H. destruct H as [Ht Hm].
  apply py_type_eqb_eq in Ht.
  rewrite !check_field_ok, <- Ht. now apply validate_value_weaken.
Qed.

End RevalidateFacts.

Section InstanceFacts.

Variable sub : string -> kwargs -> result value.
Variable utcnow : nat -> Z.
Hypothesis sub_revalidates : revalidates sub.

(** When no field fails, the instance has one entry per field, in order,
    each produced from the argument or the default of its field. *)
Lemma validate_fields_produced (fs : list FieldInfo) (kw : kwargs) :
  forall calls,
    collected_errors (validate_fields sub utcnow fs kw calls) = [] ->
    Forall2 (fun f kv => fst kv = name f /\ produced sub utcnow f kw (snd kv))
      fs (collected_values (validate_fields sub utcnow fs kw calls)).
Proof.
  induction fs as [|f fs IH]; intros calls H; simpl in *; [constructor|].
  destruct (lookup (name f) kw) as [v|] eqn:L.
  - simpl in *. destruct (check_field sub f v) as [v'|e more] eqn:C; simpl in *.
    + constructor; [|now apply IH].
      split; [reflexivity|]. unfold produced. now rewrite L.
    + discriminate H.
  - destruct (field_default (args f)) as [d|] eqn:D.
    + destruct (eval_default utcnow d calls) as [v c'] eqn:Ev. simpl in *.
      constructor; [|now apply IH].
      split; [reflexivity|]. unfold produced. rewrite L.
      exists d, calls. split; [assumption|]. now rewrite Ev.
    + simpl in H. discriminate H.
Qed.

Lemma model_validate_produced (m : Model) (kw : kwargs) (calls : nat) (r : kwargs) :
  model_validate sub utcnow m kw calls = Ok r ->
  Forall2 (fun f kv => fst kv = name f /\ produced sub utcnow f kw (snd kv))
    (model_fields m) r.
Proof.
  unfold model_validate. intro H.
  destruct (collected_errors _) eqn:E; [|discriminate H].
  injection H as <-. now apply validate_fields_produced.
Qed.

(** The keys of an instance are the names of the fields, in order. *)
Lemma instance_keys (m : Model) (kw : kwargs) (calls : nat) (r : kwargs) :
  model_validate sub utcnow m kw calls = Ok r ->
  map fst r = field_names m.
Proof.
  intro H. apply model_validate_produced in H. unfold field_names.
  induction H as [|f kv fs r [Hk _] _ IH]; simpl; [reflexivity|].
  now rewrite Hk, IH.
Qed.

Lemma entry_lookup (P : FieldInfo -> value -> Prop) (fs : list FieldInfo) (r : kwargs) :
  NoDup (map name fs) ->
  Forall2 (fun f kv => fst kv = name f /\ P f (snd kv)) fs r ->
  forall f, In f fs -> exists v, lookup (name f) r = Some v /\ P f v.
Proof.
  intros Hd H. induction H as [|g [k v] fs r [Hk Hp] H IH]; intros f Hin;
    [contradiction|].
  simpl in *. subst k. inversion Hd as [|? ? Hn Hd']; subst.
  destruct Hin as [->|Hin].
  - rewrite String.eqb_refl. now exists v.
  - destruct (String.eqb (name f) (name g)) eqn:E.
    + apply String.eqb_eq in E. exfalso. apply Hn. rewrite <- E.
      now apply in_map.
    + now apply IH.
Qed.

Lemma find_field_self (m : Model) (g : FieldInfo) :
  NoDup (field_names m) -> In g (model_fields m) ->
  find_field (name g) m = Some g.
Proof.
  unfold find_field, field_names.
  induction (model_fields m) as [|f fs IH]; simpl; intros Hd Hin; [contradiction|].
  inversion Hd as [|? ? Hn Hd']; subst.
  destruct Hin as [->|Hin].
  - now rewrite String.eqb_refl.
  - destruct (String.eqb (name f) (name g)) eqn:E; [|now apply IH].
    apply String.eqb_eq in E. exfalso. apply Hn. rewrite E. now apply in_map.
Qed.

Lemma find_field_some (m : Model) (k : string) (f : FieldInfo) :
  find_field k m = Some f -> In f (model_fields m) /\ name f = k.
Proof.
  unfold find_field. intro H. apply find_some in H.
  destruct H as [Hin He]. split; [assumption|now apply String.eqb_eq].
Qed.

Lemma find_field_none (m : Model) (k : string) :
  find_field k m = None -> ~ In k (field_names m).
Proof.
  unfold find_field, field_names. intros H Hin.
  apply in_map_iff in Hin. destruct Hin as (f & <- & Hin).
  pose proof (find_none _ _ H f Hin) as E. simpl in E.
  now rewrite String.eqb_refl in E.
Qed.

Section OneInstance.

Variable m1 : Model.
Variable kw : kwargs.
Variable calls : nat.
Variable r : kwargs.
Hypothesis defaults1 : forall c, Forall (default_passes sub utcnow c) (model_fields m1).
Hypothesis distinct1 : NoDup (field_names m1).
Hypothesis validated : model_validate sub utcnow m1 kw calls = Ok r.

(** Every field of a validated instance holds a value that passes the
    field unchanged. *)
Lemma instance_lookup (k : string) (f : FieldInfo) :
  find_field k m1 = Some f ->
  exists v, lookup k r = Some v /\ check_field sub f v = Ok v.
Proof.
  intro F. apply find_field_some in F. destruct F as [Hin <-].
  destruct (entry_lookup (fun f v => produced sub utcnow f kw v) distinct1
              (model_validate_produced _ _ _ validated) f Hin) as (v & Hl & Hp).
  exists v. split; [assumption|].
  unfold produced in Hp. destruct (lookup (name f) kw) as [v0|].
  - now apply (check_field_idem sub_revalidates f v0).
  - destruct Hp as (d & c & Hd & ->).
    pose proof (defaults1 c) as D. rewrite Forall_forall in D.
    specialize (D f Hin). unfold default_passes in D. now rewrite Hd in D.
Qed.

Variable m2 : Model.
Variable pre : kwargs.
Hypothesis distinct2 : NoDup (field_names m2).
Hypothesis supplied : supplies m1 pre m2 = true.
Hypothesis pre_passes :
  forall g v, In g (model_fields m2) -> lookup (name g) pre = Some v ->
              is_ok (check_field sub g v) = true.

Lemma supplied_field_passes (g : FieldInfo) :
  In g (model_fields m2) -> field_passes sub g (pre ++ r) = true.
Proof.
  intro Hin. unfold field_passes. rewrite lookup_app.
  destruct (lookup (name g) pre) as [v|] eqn:Lp; [now apply pre_passes|].
  unfold supplies in supplied. rewrite forallb_forall in supplied.
  specialize (supplied g Hin). unfold supplied_by in supplied.
  rewrite Lp in supplied.
  destruct (find_field (name g) m1) as [f|] eqn:F.
  - destruct (instance_lookup _ F) as (v & -> & Hv).
    now rewrite (@field_accepts_ok sub g f v v supplied Hv).
  - apply find_field_none in F.
    rewrite <- (instance_keys _ _ _ validated) in F.
    now rewrite (lookup_absent _ _ F).
Qed.

(** An instance of [m1], with [pre] in front of it, validates as [m2],
    and the fields that [m2] takes from the instance keep their values. *)
Lemma instance_revalidates_as (calls' : nat) :
  exists r2,
    model_validate sub utcnow m2 (pre ++ r) calls' = Ok r2 /\
    Forall (fun k => lookup k r2 = lookup k r) (taken_from m1 pre m2).
Proof.
  assert (Hok : is_ok (model_validate sub utcnow m2 (pre ++ r) calls') = true).
  { rewrite model_validate_passes, forallb_forall.
    intros g Hg. now apply supplied_field_passes. }
  destruct (model_validate sub utcnow m2 (pre ++ r) calls') as [r2|] eqn:V;
    [|discriminate Hok].
  exists r2. split; [reflexivity|].
  apply Forall_forall. intros k Hk. unfold taken_from in Hk.
  apply in_map_iff in Hk. destruct Hk as (g & <- & Hg).
  apply filter_In in Hg. destruct Hg as [Hg Hc].
  apply andb_prop in Hc. destruct Hc as [Hp Hf].
  destruct (lookup (name g) pre) as [?|] eqn:Lp; [discriminate Hp|].
  destruct (find_field (name g) m1) as [f|] eqn:F; [|discriminate Hf].
  destruct (instance_lookup _ F) as (v & Hl & Hv).
  destruct (entry_lookup (fun f v => produced sub utcnow f (pre ++ r) v) distinct2
              (model_validate_produced _ _ _ V) g Hg) as (v2 & Hl2 & Hp2).
  unfold produced in Hp2. rewrite lookup_app, Lp, Hl in Hp2.
  unfold supplies in supplied. rewrite forallb_forall in supplied.
  specialize (supplied g Hg). unfold supplied_by in supplied.
  rewrite Lp, F in supplied.
  rewrite (@field_accepts_ok sub g f v v supplied Hv) in Hp2. injection Hp2 as <-.
  now rewrite Hl, Hl2.
Qed.

End OneInstance.

(** Validating a validated instance gives the instance back. *)
Lemma model_validate_idem (m : Model) (kw : kwargs) (calls : nat) (r : kwargs)
      (calls' : nat) :
  (forall c, Forall (default_passes sub utcnow c) (model_fields m)) ->
  NoDup (field_names m) ->
  model_validate sub utcnow m kw calls = Ok r ->
  model_validate sub utcnow m r calls' = Ok r.
Proof.
  intros D N V.
  assert (Hok : is_ok (model_validate sub utcnow m r calls') = true).
  { rewrite model_validate_passes, forallb_forall. intros g Hg.
    unfold field_passes.
    destruct (@instance_lookup m kw calls r D N V _ _ (@find_field_self m g N Hg)) as (v & -> & Hv).
    now rewrite Hv. }
  destruct (model_validate sub utcnow m r calls') as [r2|] eqn:V2;
    [|discriminate Hok].
  f_equal. symmetry. apply same_lookups.
  - now rewrite (instance_keys _ _ _ V), (instance_keys _ _ _ V2).
  - now rewrite (instance_keys _ _ _ V).
  - rewrite (instance_keys _ _ _ V). intros k Hk. unfold field_names in Hk.
    apply in_map_iff in Hk. destruct Hk as (g & <- & Hg).
    destruct (@instance_lookup m kw calls r D N V _ _ (@find_field_self m g N Hg)) as (v & Hl & Hv).
    destruct (entry_lookup (fun f v => produced sub utcnow f r v) N
                (model_validate_produced _ _ _ V2) g Hg) as (v2 & Hl2 & Hp2).
    unfold produced in Hp2. rewrite Hl, Hv in Hp2. injection Hp2 as <-.
    now rewrite Hl, Hl2.
Qed.

End InstanceFacts.

(** ** The classes of the module *)

Lemma no_nested_revalidates : revalidates no_nested.
Proof. intros c kv v H. discriminate H. Qed.

Lemma module_defaults_pass : Forall defaults_pass module_classes.
Proof.
  repeat (constructor;
          [intros sub utcnow c;
           repeat (constructor; [first [exact I|reflexivity]|]); constructor|]).
  constructor.
Qed.

Lemma module_fields_distinct :
  Forall (fun m => NoDup (field_names m)) module_classes.
Proof.
  repeat (constructor; [apply distinct_NoDup; reflexivity|]). constructor.
Qed.

Lemma class_defaults_pass (m : Model) :
  In m module_classes -> defaults_pass m.
Proof. apply (proj1 (Forall_forall _ _) module_defaults_pass). Qed.

Lemma class_fields_distinct (m : Model) :
  In m module_classes -> NoDup (field_names m).
Proof.
  apply (proj1 (Forall_forall (fun m => NoDup (field_names m)) _)
           module_fields_distinct).
Qed.

Lemma validate_nested_revalidates : revalidates validate_nested.
Proof.
  intros c kv v H. unfold validate_nested in *.
  destruct (find_class c module_classes) as [m|] eqn:F; [|discriminate H].
  apply find_some in F. destruct F as [Hin _].
  destruct (model_validate no_nested (fun _ => 0%Z) m kv 0) as [inst|] eqn:V;
    [|discriminate H].
  injection H as <-. exists inst. split; [reflexivity|].
  rewrite (@model_validate_idem no_nested (fun _ => 0%Z) no_nested_revalidates
             m kv 0 inst 0); [reflexivity| |now apply class_fields_distinct|exact V].
  intro c0. now apply class_defaults_pass.
Qed.

(** X6: in every class of the module, every declared default passes the
    validation of its own field and comes back unchanged: the empty
    strings and ["pdf"] are within the length limits, [None] is only the
    default of optional fields, [SINGLE] is a marital status, and the
    clock gives a datetime. *)
Theorem declared_defaults_are_valid :
  Forall (fun m =>
            forall utcnow c,
              Forall (fun f =>
                        forall d, field_default (args f) = Some d ->
                                  check_field validate_nested f (fst (eval_default utcnow d c))
                                  = Ok (fst (eval_default utcnow d c)))
                (model_fields m))
    module_classes.
Proof.
  apply Forall_forall. intros m Hm utcnow c.
  pose proof (class_defaults_pass Hm) as D. unfold defaults_pass in D.
  specialize (D validate_nested utcnow c).
  apply Forall_forall. intros f Hf d Hd.
  rewrite Forall_forall in D. specialize (D f Hf).
  unfold default_passes in D. now rewrite Hd in D.
Qed.

(** X7: for every class of the module, an instance that validation
    returned validates again, to itself. *)
Theorem validation_is_idempotent :
  forall utcnow m kw calls r calls',
    In m module_classes ->
    validate utcnow m kw calls = Ok r ->
    validate utcnow m r calls' = Ok r.
Proof.
  intros utcnow m kw calls r calls' Hm V. unfold validate in *.
  apply (@model_validate_idem validate_nested utcnow validate_nested_revalidates
           m kw calls r calls'); [|now apply class_fields_distinct|exact V].
  intro c. now apply class_defaults_pass.
Qed.

(** A stored letter validates again, to itself. *)
Lemma validation_is_idempotent_witness :
  validate (fun _ => 0%Z) MarriageLetter stored_letter 5 = Ok stored_letter.
Proof.
  apply (@validation_is_idempotent (fun _ => 0%Z) MarriageLetter full_letter 0
           stored_letter 5).
  - simpl. auto.
  - reflexivity.
Defined.

(** A field that the arguments leave out holds its default in the
    instance. *)
Lemma defaulted_field (sub : string -> kwargs -> result value) (utcnow : nat -> Z)
      (m : Model) (kw : kwargs) (calls : nat) (r : kwargs) (g : FieldInfo) :
  NoDup (field_names m) ->
  model_validate sub utcnow m kw calls = Ok r ->
  In g (model_fields m) ->
  lookup (name g) kw = None ->
  exists d c, field_default (args g) = Some d /\
              lookup (name g) r = Some (fst (eval_default utcnow d c)).
Proof.
  intros N V Hg L.
  destruct (entry_lookup (fun f v => produced sub utcnow f kw v) N
              (model_validate_produced _ _ _ _ _ V) g Hg) as (v & Hl & Hp).
  unfold produced in Hp. rewrite L in Hp. destruct Hp as (d & c & Hd & ->).
  now exists d, c.
Qed.

(** A field given in the arguments holds what its validation returned. *)
Lemma given_field (sub : string -> kwargs -> result value) (utcnow : nat -> Z)
      (m : Model) (kw : kwargs) (calls : nat) (r : kwargs) (g : FieldInfo) (v : value) :
  NoDup (field_names m) ->
  model_validate sub utcnow m kw calls = Ok r ->
  In g (model_fields m) ->
  lookup (name g) kw = Some v ->
  exists v', check_field sub g v = Ok v' /\ lookup (name g) r = Some v'.
Proof.
  intros N V Hg L.
  destruct (entry_lookup (fun f v => produced sub utcnow f kw v) N
              (model_validate_produced _ _ _ _ _ V) g Hg) as (v' & Hl & Hp).
  unfold produced in Hp. rewrite L in Hp. now exists v'.
Qed.

(** ** The references of a marriage letter *)

(** A field that validation passed was given a value, or has a default. *)
Lemma passed_field (sub : string -> kwargs -> result value) (utcnow : nat -> Z)
      (m : Model) (kw : kwargs) (calls : nat) (f : FieldInfo) :
  is_ok (model_validate sub utcnow m kw calls) = true ->
  In f (model_fields m) ->
  field_passes sub f kw = true.
Proof.
  rewrite model_validate_passes, forallb_forall. auto.
Qed.






(** ** From a Create schema to its table *)

Lemma nothing_given (sub : string -> kwargs -> result value) (m : Model) :
  forall g v, In g (model_fields m) -> lookup (name g) [] = Some v ->
              is_ok (check_field sub g v) = true.
Proof. intros g v _ H. discriminate H. Qed.

(** An instance of [c] validates as a row of [m] when [m] takes every
    field of [c] as it is and has [id] and [created_at] besides. *)
Lemma persists (c m : Model) :
  In c module_classes ->
  In m module_classes ->
  supplies c [] m = true ->
  taken_from c [] m = field_names c ->
  In (Field "id" (TOptional TInt) [default VNone; primary_key]) (model_fields m) ->
  In (Field "created_at" TDatetime [default_factory_utcnow]) (model_fields m) ->
  mem "id" (field_names c) = false ->
  mem "created_at" (field_names c) = false ->
  forall utcnow kw calls r calls',
    validate utcnow c kw calls = Ok r ->
    exists row,
      validate utcnow m r calls' = Ok row /\
      Forall (fun k => lookup k row = lookup k r) (field_names c) /\
      lookup "id" row = Some VNone /\
      exists t, lookup "created_at" row = Some (VDatetime t).
Proof.
  intros Hc Hm S T Hid Hcr Nid Ncr utcnow kw calls r calls' V.
  unfold validate in *.
  destruct (@instance_revalidates_as validate_nested utcnow
              validate_nested_revalidates c kw calls r
              (fun c0 => class_defaults_pass Hc validate_nested utcnow c0)
              (class_fields_distinct Hc) V m []
              (class_fields_distinct Hm) S (nothing_given validate_nested m) calls')
    as (row & Vr & Hk).
  simpl app in Vr. rewrite T in Hk.
  pose proof (instance_keys _ _ _ _ _ V) as K.
  assert (A : forall k, mem k (field_names c) = false -> lookup k r = None).
  { intros k Hk'. apply lookup_absent. rewrite K. intro Hin.
    unfold mem in Hk'.
    assert (E : existsb (String.eqb k) (field_names c) = true).
    { apply existsb_exists. exists k. split; [assumption|apply String.eqb_refl]. }
    rewrite E in Hk'. discriminate Hk'. }
  exists row. split; [exact Vr|]. split; [exact Hk|]. split.
  - destruct (@defaulted_field validate_nested utcnow m r calls' row _
                (class_fields_distinct Hm) Vr Hid (A _ Nid))
      as (d & c0 & Hd & Hl).
    injection Hd as <-. exact Hl.
  - destruct (@defaulted_field validate_nested utcnow m r calls' row _
                (class_fields_distinct Hm) Vr Hcr (A _ Ncr))
      as (d & c0 & Hd & Hl).
    injection Hd as <-. eexists. exact Hl.
Qed.

(** X8: an instance of a Create schema validates as a row of the table it
    is for: [PersonCreate] as [Person], [FamilyBackgroundCreate] as
    [FamilyBackground], [MarriagePreferencesCreate] as
    [MarriagePreferences].  The row keeps every value of the instance,
    has [id] [None] and is stamped with a creation time. *)
Theorem create_instances_persist :
  Forall (fun p =>
            forall utcnow kw calls r calls',
              validate utcnow (fst p) kw calls = Ok r ->
              exists row,
                validate utcnow (snd p) r calls' = Ok row /\
                Forall (fun k => lookup k row = lookup k r) (field_names (fst p)) /\
                lookup "id" row = Some VNone /\
                exists t, lookup "created_at" row = Some (VDatetime t))
    create_pairs.
Proof.
  repeat (constructor;
          [apply persists; first [reflexivity|simpl; auto 30]|]).
  constructor.
Qed.

(** A created person validates as a row of the persons table. *)
Lemma create_instances_persist_witness :
  exists row,
    validate (fun _ => 0%Z) Person created_person 0 = Ok row /\
    Forall (fun k => lookup k row = lookup k created_person) (field_names PersonCreate) /\
    lookup "id" row = Some VNone /\
    exists t, lookup "created_at" row = Some (VDatetime t).
Proof.
  apply (Forall_inv create_instances_persist (fun _ => 0%Z)
           (person_input "Amir Khan" "islam") 0 created_person 0).
  reflexivity.
Defined.

(** ** From a letter to its response *)

(** X9: a validated letter, given an integer id and the names of husband
    and wife, validates as a [MarriageLetterResponse]; the response holds
    that id and those names, and the letter's own type, reference number,
    purpose, contact details, print status and timestamps. *)
Theorem letter_frames_as_response :
  forall utcnow kw calls r z husband wife calls',
    validate utcnow MarriageLetter kw calls = Ok r ->
    exists resp,
      validate utcnow MarriageLetterResponse (response_extra z husband wife ++ r) calls'
      = Ok resp /\
      lookup "id" resp = Some (VInt z) /\
      lookup "husband_name" resp = Some (VStr husband) /\
      lookup "wife_name" resp = Some (VStr wife) /\
      Forall (fun k => lookup k resp = lookup k r) response_letter_fields.
Proof.
  intros utcnow kw calls r z husband wife calls' V. unfold validate in *.
  assert (Hl : In MarriageLetter module_classes) by (simpl; auto 20).
  assert (Hr : In MarriageLetterResponse module_classes) by (simpl; auto 20).
  assert (P : forall g v,
             In g (model_fields MarriageLetterResponse) ->
             lookup (name g) (response_extra z husband wife) = Some v ->
             is_ok (check_field validate_nested g v) = true).
  { intros g v Hg L. simpl in Hg.
    repeat (destruct Hg as [<-|Hg]; [simpl in L; try discriminate L;
                                     injection L as <-; reflexivity|]).
    contradiction. }
  destruct (@instance_revalidates_as validate_nested utcnow
              validate_nested_revalidates MarriageLetter kw calls r
              (fun c0 => class_defaults_pass Hl validate_nested utcnow c0)
              (class_fields_distinct Hl) V MarriageLetterResponse
              (response_extra z husband wife)
              (class_fields_distinct Hr) eq_refl P calls')
    as (resp & Vr & Hk).
  exists resp. split; [exact Vr|].
  assert (G : forall g v,
             In g (model_fields MarriageLetterResponse) ->
             lookup (name g) (response_extra z husband wife) = Some v ->
             check_field validate_nested g v = Ok v ->
             lookup (name g) resp = Some v).
  { intros g v Hg L C.
    destruct (@given_field validate_nested utcnow MarriageLetterResponse
                (response_extra z husband wife ++ r) calls' resp g v
                (class_fields_distinct Hr) Vr Hg) as (v' & C' & L').
    - now rewrite lookup_app, L.
    - rewrite C in C'. now injection C' as <-. }
  split; [|split; [|split]].
  - apply (G (Field "id" TInt [])); [simpl; auto|reflexivity|reflexivity].
  - apply (G (Field "husband_name" TStr [])); [simpl; auto 20|reflexivity|reflexivity].
  - apply (G (Field "wife_name" TStr [])); [simpl; auto 20|reflexivity|reflexivity].
  - exact Hk.
Qed.

(** The stored letter, as number 7, frames as a response. *)
Lemma letter_frames_as_response_witness :
  exists resp,
    validate (fun _ => 0%Z) MarriageLetterResponse
      (response_extra 7 "Amir Khan" "Sara Malik" ++ stored_letter) 0 = Ok resp /\
    lookup "id" resp = Some (VInt 7) /\
    lookup "husband_name" resp = Some (VStr "Amir Khan") /\
    lookup "wife_name" resp = Some (VStr "Sara Malik") /\
    Forall (fun k => lookup k resp = lookup k stored_letter) response_letter_fields.
Proof.
  apply (@letter_frames_as_response (fun _ => 0%Z) full_letter 0 stored_letter
           7%Z "Amir Khan" "Sara Malik" 0).
  reflexivity.
Defined.

(** ** Nothing given *)

Lemma empty_arguments_errors (sub : string -> kwargs -> result value)
      (utcnow : nat -> Z) (fs : list FieldInfo) :
  forall calls,
    collected_errors (validate_fields sub utcnow fs [] calls)
    = map (fun f => ErrorDetails [Key (name f)] missing) (filter is_required fs).
Proof.
  induction fs as [|f fs IH]; intro calls; simpl; [reflexivity|].
  unfold is_required. destruct (field_default (args f)) as [d|]; simpl.
  - destruct (eval_default utcnow d calls) as [v c']. simpl. apply IH.
  - f_equal. apply IH.
Qed.

Lemma empty_arguments_unset (utcnow : nat -> Z) (fs : list FieldInfo) :
  forall calls,
    map fst (table_construct utcnow fs [] calls)
    = map name (filter (fun f => negb (is_required f)) fs).
Proof.
  induction fs as [|f fs IH]; intro calls; simpl; [reflexivity|].
  unfold is_required. destruct (field_default (args f)) as [d|]; simpl.
  - destruct (eval_default utcnow d calls) as [v c']. simpl. f_equal. apply IH.
  - apply IH.
Qed.

(** X10: validated from no argument at all, a class reports each of its
    required fields as missing, in declaration order, and nothing else;
    calling a schema that is not a table on no argument does the same,
    while calling a table class reports nothing and returns an instance
    that holds the defaulted fields only, the required ones left unset.
    So validation from nothing succeeds for the classes without a
    required field, [MarriagePreferences] and [MarriagePreferencesCreate],
    and the call succeeds for these and for the three other tables. *)
Theorem nothing_given_reports_required_fields :
  (forall utcnow m calls,
      errors_of (validate utcnow m [] calls) = missing_errors m) /\
  (forall utcnow m calls,
      errors_of (construct utcnow m [] calls)
      = if table m then [] else missing_errors m) /\
  (forall utcnow m calls,
      table m = true ->
      exists inst,
        construct utcnow m [] calls = Ok inst /\
        map fst inst = map name (filter (fun f => negb (is_required f)) (model_fields m))) /\
  (forall utcnow calls,
      map cls_name (filter (fun m => is_ok (validate utcnow m [] calls)) module_classes)
      = ["MarriagePreferences"; "MarriagePreferencesCreate"]) /\
  (forall utcnow calls,
      map cls_name (filter (fun m => is_ok (construct utcnow m [] calls)) module_classes)
      = ["Person"; "MarriagePreferences"; "FamilyBackground"; "MarriageLetter";
         "MarriagePreferencesCreate"]) /\
  map cls_name
    (filter (fun m => Nat.eqb (List.length (filter is_required (model_fields m))) 0)
       module_classes)
  = ["MarriagePreferences"; "MarriagePreferencesCreate"].
Proof.
  assert (V : forall utcnow m calls,
             errors_of (model_validate validate_nested utcnow m [] calls)
             = missing_errors m).
  { intros utcnow m calls. unfold model_validate, missing_errors.
    rewrite <- (empty_arguments_errors validate_nested utcnow (model_fields m) calls).
    destruct (collected_errors _); reflexivity. }
  split; [exact V|]. split; [|split; [|split; [|split]]].
  - intros utcnow m calls. unfold construct, init.
    destruct (table m); [reflexivity|apply V].
  - intros utcnow m calls T. unfold construct, init. rewrite T.
    eexists. split; [reflexivity|]. apply empty_arguments_unset.
  - intros utcnow calls. reflexivity.
  - intros utcnow calls. reflexivity.
  - reflexivity.
Qed.

(** Called on no argument, the persons table returns a person without a
    name. *)
Lemma nothing_given_reports_required_fields_witness :
  exists inst,
    construct (fun _ => 0%Z) Person [] 0 = Ok inst /\
    map fst inst = map name (filter (fun f => negb (is_required f)) (model_fields Person)).
Proof.
  apply (proj1 (proj2 (proj2 nothing_given_reports_required_fields))
           (fun _ => 0%Z) Person 0).
  reflexivity.
Defined.

(** ** The letter and its Create schema *)

(** X11: [MarriageLetterCreate] follows [MarriageLetter] field by field:
    each of the ten foreign keys [x_id] appears as [x_data], annotated
    with the Create schema of the table the key points into, required or
    optional as the key is and with the same default; every other field
    of the request is a field of the letter with the same annotation,
    default and length limit; the order is that of the letter; and the
    fields of the letter that the request leaves out are [id],
    [reference_number], the print status and the timestamps. *)
Theorem letter_create_follows_letter :
  map mirror_view (create_view MarriageLetter MarriageLetterCreate)
  = map mirror_view (model_fields MarriageLetterCreate) /\
  Forall (fun f => exists d c n,
              data_field f = Some d /\
              find_field (name d) MarriageLetterCreate = Some d /\
              named_class (annotation d) = Some c /\
              find_class c create_schemas = Some n /\
              is_required d = is_required f)
    (filter (fun f => is_some (field_foreign_key (args f))) (model_fields MarriageLetter)) /\
  server_fields MarriageLetter MarriageLetterCreate
  = ["id"; "reference_number"; "is_printed"; "print_date"; "created_at"; "updated_at"].
Proof.
  split; [reflexivity|]. split; [|reflexivity].
  repeat (constructor;
          [do 3 eexists; repeat (split; [reflexivity|]); reflexivity|]).
  constructor.
Qed.

(** ** Optional fields *)

(** X12: a field defaults to [None] only if it is optional, and every
    optional field of the module defaults to [None], but for
    [print_date] of [MarriageLetterResponse], which declares no default:
    a response must be given its [print_date], be it [None]. *)
Theorem optional_fields_default_to_none :
  Forall (fun m =>
            Forall (fun f =>
                      defaults_to_none f
                      = is_optional_type (annotation f) && negb (is_required f))
              (model_fields m))
    module_classes /\
  map (fun m => (cls_name m, optional_without_default m))
    (filter (fun m => negb (Nat.eqb (List.length (optional_without_default m)) 0))
       module_classes)
  = [("MarriageLetterResponse", ["print_date"])] /\
  (forall utcnow kw calls,
      is_ok (validate utcnow MarriageLetterResponse kw calls) = true ->
      exists v, lookup "print_date" kw = Some v) /\
  (forall utcnow kw calls,
      is_ok (validate utcnow MarriageLetterResponse (("print_date", VNone) :: kw) calls)
      = others_pass validate_nested MarriageLetterResponse "print_date" kw).
Proof.
  split; [|split; [reflexivity|split]].
  - repeat (constructor; [repeat (constructor; [reflexivity|]); constructor|]).
    constructor.
  - intros utcnow kw calls H. unfold validate in H.
    pose proof (@passed_field validate_nested utcnow MarriageLetterResponse kw calls
                  (Field "print_date" (TOptional TDatetime) []) H) as P.
    unfold field_passes in P. simpl in P.
    destruct (lookup "print_date" kw) as [v|].
    + now exists v.
    + discriminate P; simpl; auto 20.
  - intros utcnow kw calls. unfold validate.
    now rewrite model_validate_override.
Qed.

(** ** A letter given by its required fields *)

(** X13: validation accepts a letter given by its required fields exactly
    when the reference number has at most 50 characters, the purpose at
    most 500, the contact person at most 255 and the contact phone at most
    20; calling the table class does not check: it keeps the values as
    they are given, whatever their lengths. *)
Theorem minimal_letter_acceptance :
  forall utcnow lt ref h w purpose person phone calls,
    is_ok (validate utcnow MarriageLetter
             (required_letter lt ref h w purpose person phone) calls)
    = Nat.leb (String.length ref) 50 && Nat.leb (String.length purpose) 500
      && Nat.leb (String.length person) 255 && Nat.leb (String.length phone) 20 /\
    exists inst,
      construct utcnow MarriageLetter
        (required_letter lt ref h w purpose person phone) calls = Ok inst /\
      lookup "reference_number" inst = Some (VStr ref) /\
      lookup "purpose" inst = Some (VStr purpose) /\
      lookup "contact_person" inst = Some (VStr person) /\
      lookup "contact_phone" inst = Some (VStr phone).
Proof.
  intros utcnow lt ref h w purpose person phone calls. split.
  - unfold validate. rewrite model_validate_passes.
    unfold field_passes, check_field, required_letter.
    destruct lt; cbn;
      destruct (Nat.leb (String.length ref) 50);
      destruct (Nat.leb (String.length purpose) 500);
      destruct (Nat.leb (String.length person) 255);
      destruct (Nat.leb (String.length phone) 20); reflexivity.
  - eexists. split; [reflexivity|]. repeat split.
Qed.

(** ** Decimal places *)

Lemma decimal_places_of_le (s : nat) : forall u, decimal_places_of u s <= s.
Proof.
  induction s as [|s IH]; intro u; simpl; [lia|].
  destruct (u mod 10 =? 0)%Z; [|lia].
  specialize (IH (u / 10)%Z). lia.
Qed.

Lemma decimal_places_of_exact (u : Z) (s : nat) :
  (u mod 10 <> 0)%Z -> decimal_places_of u s = s.
Proof.
  intro H. destruct s as [|s]; simpl; [reflexivity|].
  destruct (u mod 10 =? 0)%Z eqn:E; [|reflexivity].
  apply Z.eqb_eq in E. contradiction.
Qed.

(** X14: the decimal fields of the Create schemas are [monthly_income]
    (two places) and [weight_kg] (one place) of [PersonCreate] and
    [preferred_income_min] (two places) of [MarriagePreferencesCreate].
    Whatever the other arguments, a monthly income written with at most
    two decimal places is accepted as [None] is, and one written with more
    places, the last of them not zero, is rejected. *)
Theorem decimal_places_enforced :
  map (fun m => (cls_name m, decimal_fields m)) create_schemas
  = [ ("PersonCreate", [("monthly_income", Some 2); ("weight_kg", Some 1)]);
      ("MarriagePreferencesCreate", [("preferred_income_min", Some 2)]);
      ("FamilyBackgroundCreate", []);
      ("MarriageLetterCreate", []) ] /\
  (forall utcnow u s kw calls,
      is_ok (validate utcnow PersonCreate (("monthly_income", VDecimal u s) :: kw) calls)
      = Nat.leb (decimal_places_of u s) 2
        && is_ok (validate utcnow PersonCreate (("monthly_income", VNone) :: kw) calls)) /\
  (forall utcnow u s kw calls,
      s <= 2 ->
      is_ok (validate utcnow PersonCreate (("monthly_income", VDecimal u s) :: kw) calls)
      = is_ok (validate utcnow PersonCreate (("monthly_income", VNone) :: kw) calls)) /\
  (forall utcnow u s kw calls,
      2 < s -> (u mod 10 <> 0)%Z ->
      is_ok (validate utcnow PersonCreate (("monthly_income", VDecimal u s) :: kw) calls)
      = false).
Proof.
  assert (E : forall utcnow u s kw calls,
             is_ok (validate utcnow PersonCreate
                      (("monthly_income", VDecimal u s) :: kw) calls)
             = Nat.leb (decimal_places_of u s) 2
               && is_ok (validate utcnow PersonCreate
                           (("monthly_income", VNone) :: kw) calls)).
  { intros utcnow u s kw calls. unfold validate.
    rewrite (model_validate_replace validate_nested utcnow PersonCreate
               "monthly_income" (VDecimal u s) VNone kw calls eq_refl).
    f_equal. unfold value_accepted, check_field. cbn.
    destruct (Nat.leb (decimal_places_of u s) 2); reflexivity. }
  split; [reflexivity|]. split; [exact E|]. split.
  - intros utcnow u s kw calls Hs. rewrite E.
    replace (Nat.leb (decimal_places_of u s) 2) with true; [reflexivity|].
    symmetry. apply Nat.leb_le. pose proof (decimal_places_of_le s u). lia.
  - intros utcnow u s kw calls Hs Hu. rewrite E.
    rewrite (decimal_places_of_exact u s Hu).
    replace (Nat.leb s 2) with false; [reflexivity|].
    symmetry. apply Nat.leb_gt. lia.
Qed.

(** An income of 1234.50 is accepted, one of 1234.567 is not. *)
Lemma decimal_places_enforced_witness :
  is_ok (validate (fun _ => 0%Z) PersonCreate
           (("monthly_income", VDecimal 123450 2) :: person_input "Amir Khan" "islam") 0)
  = true /\
  is_ok (validate (fun _ => 0%Z) PersonCreate
           (("monthly_income", VDecimal 1234567 3) :: person_input "Amir Khan" "islam") 0)
  = false.
Proof.
  split.
  - rewrite (proj1 (proj2 (proj2 decimal_places_enforced)) (fun _ => 0%Z) 123450%Z 2
               (person_input "Amir Khan" "islam") 0); [reflexivity|lia].
  - apply (proj2 (proj2 (proj2 decimal_places_enforced)) (fun _ => 0%Z) 1234567%Z 3
             (person_input "Amir Khan" "islam") 0); [lia|].
    vm_compute. discriminate.
Defined.

(** ** Acceptable marital statuses *)

Lemma validate_strings (sub : string -> kwargs -> result value) (l : list value) :
  forall i,
    snd (validate_items (validate_value sub TStr None None) l i) = []
    <-> forallb is_str_value l = true.
Proof.
  set (f := validate_value sub TStr None None).
  induction l as [|x l IH]; intro i; [simpl; tauto|].
  cbn [validate_items forallb].
  destruct (validate_items f l (S i)) as [vs es] eqn:E.
  specialize (IH (S i)). rewrite E in IH. simpl in IH.
  destruct x; unfold f; simpl; try (split; discriminate).
  exact IH.
Qed.

Lemma validate_string_list (sub : string -> kwargs -> result value) (l : list value) :
  is_ok (validate_value sub (TList TStr) None None (VList l)) = forallb is_str_value l.
Proof.
  change (validate_value sub (TList TStr) None None (VList l))
    with (match validate_items (validate_value sub TStr None None) l 0 with
          | (vs, []) => Ok (VList vs)
          | (_, e :: more) => Err e more
          end).
  pose proof (validate_strings sub l 0) as S.
  destruct (validate_items (validate_value sub TStr None None) l 0) as [vs es].
  simpl in S. destruct es as [|e es]; simpl.
  - symmetry. now apply S.
  - destruct (forallb is_str_value l); [|reflexivity].
    destruct S as [_ S]. discriminate (S eq_refl).
Qed.

(** X15: [marital_status_acceptable] is a list of strings and nothing
    more: whatever the other arguments, a list of plain strings is
    accepted as the empty list is, whether or not the strings are values
    of [MaritalStatus], and a list with an item that is not a string
    ([None], a number, a date, a list, a dict) is refused. *)
Theorem acceptable_statuses_are_plain_strings :
  (exists f,
      find_field "marital_status_acceptable" MarriagePreferencesCreate = Some f /\
      annotation f = TList TStr /\ field_max_length (args f) = None) /\
  (forall utcnow l kw calls,
      forallb is_str_value l = true ->
      is_ok (validate utcnow MarriagePreferencesCreate
               (("marital_status_acceptable", VList l) :: kw) calls)
      = is_ok (validate utcnow MarriagePreferencesCreate
                 (("marital_status_acceptable", VList []) :: kw) calls)) /\
  (forall utcnow l kw calls,
      existsb (fun v => negb (is_text_value v)) l = true ->
      is_ok (validate utcnow MarriagePreferencesCreate
               (("marital_status_acceptable", VList l) :: kw) calls)
      = false) /\
  (forall utcnow (names : list string) calls,
      is_ok (validate utcnow MarriagePreferencesCreate
               [("marital_status_acceptable", VList (map VStr names))] calls)
      = true).
Proof.
  assert (E : forall utcnow l kw calls,
             is_ok (validate utcnow MarriagePreferencesCreate
                      (("marital_status_acceptable", VList l) :: kw) calls)
             = forallb is_str_value l
               && is_ok (validate utcnow MarriagePreferencesCreate
                           (("marital_status_acceptable", VList []) :: kw) calls)).
  { intros utcnow l kw calls. unfold validate.
    rewrite (model_validate_replace validate_nested utcnow MarriagePreferencesCreate
               "marital_status_acceptable" (VList l) (VList []) kw calls eq_refl).
    f_equal. unfold value_accepted. cbn -[check_field].
    rewrite is_ok_check_field. cbn [annotation args field_max_length field_decimal_places].
    rewrite validate_string_list. apply andb_true_r. }
  assert (S : forall names, forallb is_str_value (map VStr names) = true).
  { induction names as [|n names IH]; simpl; [reflexivity|exact IH]. }
  split; [eexists; split; [reflexivity|split; reflexivity]|].
  split; [|split].
  - intros utcnow l kw calls H. now rewrite E, H.
  - intros utcnow l kw calls H. rewrite E.
    replace (forallb is_str_value l) with false; [reflexivity|].
    symmetry. apply existsb_exists in H. destruct H as (v & Hin & Hv).
    destruct (forallb is_str_value l) eqn:F; [|reflexivity].
    rewrite forallb_forall in F. specialize (F v Hin).
    destruct v; simpl in *; discriminate.
  - intros utcnow names calls. now rewrite E, S.
Qed.

(** "married" is no marital status but is accepted; a list holding [None]
    is not. *)
Lemma acceptable_statuses_are_plain_strings_witness :
  is_ok (validate (fun _ => 0%Z) MarriagePreferencesCreate
           [("marital_status_acceptable", VList [VStr "single"; VStr "married"])] 0)
  = true /\
  is_ok (validate (fun _ => 0%Z) MarriagePreferencesCreate
           [("marital_status_acceptable", VList [VStr "single"; VNone])] 0)
  = false.
Proof.
  split.
  - rewrite (proj1 (proj2 acceptable_statuses_are_plain_strings) (fun _ => 0%Z)
               [VStr "single"; VStr "married"] [] 0); reflexivity.
  - apply (proj1 (proj2 (proj2 acceptable_statuses_are_plain_strings)) (fun _ => 0%Z)
             [VStr "single"; VNone] [] 0).
    reflexivity.
Defined.
